(** * Airdrop tracker: the client screens, embedded and verified

    The repository is a React Native client with four screens:
    - the tracked-airdrop screen [MyAirdrops]   (src/unnamed/part_000),
    - the profile screen [Profile]              (src/unnamed/part_001),
    - the catalog screen [Index]                (src/frontend/app/tabs/_layout.tsx, second unit),
    - the detail screen [AirdropDetail]         (src/frontend/app/airdrop/[id].tsx).

    Every screen keeps its data in component state, fills it from HTTP
    fetches and derives what it renders from that state.  The embedding
    keeps that shape: a record per TypeScript interface, a record for the
    component state, pure functions for the derivations, and a small
    state-and-exception monad for the [async] handlers, whose [await]ed
    network results are inputs. *)

From Stdlib Require Import ZArith Ascii String List Lia.
From Stdlib Require Import Decimal DecimalFacts DecimalN DecimalString.
From stdpp Require Import gmap strings list.

(** ** JavaScript values and control flow *)

Module Js.

(** What a [throw] carries.  The handlers only log it. *)
Definition JsError := string.

(** The error of a property read on [undefined]; its message is the
    engine's. *)
Definition TypeError : JsError := "TypeError".

(** How an evaluation (or an awaited promise) ends: with a value, or
    with a thrown error (a rejected promise). *)
Inductive completion (A : Type) : Type :=
| Normal (a : A)
| Throw (e : JsError).
Arguments Normal {A} a.
Arguments Throw {A} e.

(** The world a handler runs in: the component state [ui] (every
    [useState] cell of the screen), and the two output channels the
    handlers write to, [console.error] and [Alert.alert]. *)
Record Env (St : Type) : Type := mkEnv {
  ui : St;
  console : list (string * JsError);
  alerts : list (string * string)
}.
Arguments mkEnv {St} ui console alerts.
Arguments ui {St} e.
Arguments console {St} e.
Arguments alerts {St} e.

(** An [async] function body: it transforms the world and completes. *)
Definition M (St A : Type) : Type := Env St -> completion A * Env St.

Definition ret {St A} (a : A) : M St A := fun env => (Normal a, env).

Definition bind {St A B} (m : M St A) (k : A -> M St B) : M St B :=
  fun env =>
    match m env with
    | (Normal a, env') => k a env'
    | (Throw e, env') => (Throw e, env')
    end.

#[global] Instance M_ret St : MRet (M St) := fun A a => ret a.
#[global] Instance M_bind St : MBind (M St) := fun A B k m => bind m k.

(** [await p] for a promise that has settled as [p]. *)
Definition await {St A} (p : completion A) : M St A := fun env => (p, env).

(** [try { body } catch (error) { handler(error) }] *)
Definition try_catch {St A} (body : M St A) (handler : JsError -> M St A) : M St A :=
  fun env =>
    match body env with
    | (Normal a, env') => (Normal a, env')
    | (Throw e, env') => handler e env'
    end.

(** [try { body } finally { finalizer }]: the finalizer runs on every
    exit; the body's completion stands unless the finalizer throws. *)
Definition try_finally {St A} (body : M St A) (finalizer : M St unit) : M St A :=
  fun env =>
    match body env with
    | (r, env') =>
        match finalizer env' with
        | (Normal _, env'') => (r, env'')
        | (Throw e, env'') => (Throw e, env'')
        end
    end.

(** A state setter of [useState], also in its functional form
    [setX(prev => ...)]. *)
Definition setState {St} (f : St -> St) : M St unit :=
  fun env => (Normal tt, mkEnv (f (ui env)) (console env) (alerts env)).

Definition console_error {St} (msg : string) (e : JsError) : M St unit :=
  fun env => (Normal tt, mkEnv (ui env) (console env ++ [(msg, e)]) (alerts env)).

Definition Alert_alert {St} (title message : string) : M St unit :=
  fun env => (Normal tt, mkEnv (ui env) (console env) (alerts env ++ [(title, message)])).

(** A block that works on a local mutable object (a [const details = {}]
    captured by closures): the body runs with the object as its state
    and shares the output channels; the block yields the object as the
    body left it. *)
Definition with_local {St L A} (init : L) (body : M L A) : M St (A * L) :=
  fun env =>
    match body (mkEnv init (console env) (alerts env)) with
    | (Normal a, env') => (Normal (a, ui env'), mkEnv (ui env) (console env') (alerts env'))
    | (Throw e, env') => (Throw e, mkEnv (ui env) (console env') (alerts env'))
    end.

(** [await Promise.all(tasks)], the tasks listed in the order in which
    they run to completion.  Each task here has one effectful segment
    (after its last [await]), so the batch acts as its tasks one after
    the other in completion order.  The first rejection rejects the
    batch: the awaiting function resumes there. *)
Fixpoint Promise_all {St} (tasks : list (M St unit)) : M St unit :=
  match tasks with
  | [] => ret tt
  | task :: rest => bind task (fun _ => Promise_all rest)
  end.

(** An HTTP response as the handlers read it: [response.ok], and
    [await response.json()], typed by the endpoint's contract for a 2xx
    answer ([A]) and for a failure ([E]); [json()] rejects on a body
    that is not JSON. *)
Inductive Response (A E : Type) : Type :=
| Ok2xx (json : completion A)
| NotOk (json : completion E).
Arguments Ok2xx {A E} json.
Arguments NotOk {A E} json.

Definition ok {A E} (r : Response A E) : bool :=
  match r with Ok2xx _ => true | NotOk _ => false end.

(** [fetch(url)] once it has settled: rejected (no response at all) or
    resolved with a response. *)
Definition Fetched (A E : Type) : Type := completion (Response A E).

(** Truthiness of an optional string ([undefined] and [''] are falsy). *)
Definition truthy (s : option string) : bool :=
  match s with
  | Some s => negb (String.eqb s "")
  | None => false
  end.

(** [a || b] on an optional string and a default. *)
Definition or_else (s : option string) (d : string) : string :=
  match s with
  | Some s => if String.eqb s "" then d else s
  | None => d
  end.

(** How JSX and template literals print an optional string. *)
Definition text (s : option string) : string := default "" s.

(** React mounts the children that are not [null]. *)
Definition mounted {A} (children : list (option A)) : list A := omap id children.

(** The upper-case form of an ASCII letter.  [String.prototype.toUpperCase]
    itself follows the Unicode case mappings of the host: the screens
    take it as a parameter, and [asciiUpperCase] is what it does on
    ASCII text. *)
Definition upper_ascii (c : ascii) : ascii :=
  let n := nat_of_ascii c in
  if (97 <=? n)%nat && (n <=? 122)%nat then ascii_of_nat (n - 32) else c.

Fixpoint asciiUpperCase (s : string) : string :=
  match s with
  | EmptyString => EmptyString
  | String c s' => String (upper_ascii c) (asciiUpperCase s')
  end.

(** [s.replace(c, r)] for one-character strings: the first occurrence. *)
Fixpoint replace (c r : ascii) (s : string) : string :=
  match s with
  | EmptyString => EmptyString
  | String x s' => if Ascii.eqb x c then String r s' else String x (replace c r s')
  end.

(** *** Numbers

    A number of the program is an IEEE 754 double.  The integers the
    server sends are kept as they were written; where the program
    prints one, it prints the double it holds: [toDouble] is that
    double (the nearest one, ties to the even significand; none beyond
    the largest), [Number_toString] is [Number::toString] of ECMA-262 on
    a positive integral double (the shortest digit string [s] that reads
    back as the double, with its decimal exponent; plain up to 21
    digits and in exponent form above), and [show] is how a template
    literal prints an integer. *)
Definition digits (m : Z) : string := NilZero.string_of_int (Z.to_int m).

Definition toDouble (m : Z) : option Z :=
  if (m <? 2 ^ 53)%Z then Some m
  else
    let shift := (Z.log2 m - 52)%Z in
    let q := Z.shiftr m shift in
    let r := (m - Z.shiftl q shift)%Z in
    let half := Z.shiftl 1 (shift - 1) in
    let q' := if (half <? r)%Z || ((r =? half)%Z && Z.odd q) then (q + 1)%Z else q in
    let v := Z.shiftl q' shift in
    if (2 ^ 1024 <=? v)%Z then None else Some v.

Definition roundTrips (v s e : Z) : bool :=
  (0 <? s)%Z && bool_decide (toDouble (s * 10 ^ e) = Some v).

(** The digits [s] and the exponent [e] with [s * 10 ^ e] reading back
    as [v], for the largest such [e] at or below the given one; of two
    candidates the one nearer to [v]. *)
Fixpoint shortest (v : Z) (e : nat) : Z * Z :=
  let p := (10 ^ Z.of_nat e)%Z in
  let lo := (v / p)%Z in
  let hi := (lo + 1)%Z in
  let nearest :=
    if roundTrips v lo (Z.of_nat e) && roundTrips v hi (Z.of_nat e) then
      if (v - lo * p <? hi * p - v)%Z || ((v - lo * p =? hi * p - v)%Z && Z.even lo)
      then Some lo else Some hi
    else if roundTrips v lo (Z.of_nat e) then Some lo
    else if roundTrips v hi (Z.of_nat e) then Some hi
    else None in
  match nearest, e with
  | Some s, _ => (s, Z.of_nat e)
  | None, S e' => shortest v e'
  | None, O => (v, 0%Z)
  end.

Fixpoint zeros (n : nat) : string :=
  match n with
  | O => ""
  | S n' => String "0" (zeros n')
  end.

Definition Number_toString (v : Z) : string :=
  let '(s, e) := shortest v (String.length (digits v)) in
  let k := Z.of_nat (String.length (digits s)) in
  let n := (k + e)%Z in
  if (n <=? 21)%Z then digits s +:+ zeros (Z.to_nat e)
  else
    match digits s with
    | String d EmptyString => String d ("e+" +:+ digits (n - 1))
    | String d rest => String d ("." +:+ rest +:+ "e+" +:+ digits (n - 1))
    | EmptyString => ""
    end.

Definition show (n : Z) : string :=
  if (n =? 0)%Z then "0"
  else
    match toDouble (Z.abs n) with
    | Some v => (if (n <? 0)%Z then "-" else "") +:+ Number_toString v
    | None => if (n <? 0)%Z then "-Infinity" else "Infinity"
    end.
Arguments show : simpl never.

(** *** Plain objects used as maps

    The names under which [Object.prototype] has a member (ECMA-262,
    "Properties of the Object Prototype Object", and its Annex B): a
    function under each, and under [__proto__] the prototype itself.
    Every plain object inherits them, and each is truthy. *)
Definition Object_prototype : list string :=
  ["constructor"; "hasOwnProperty"; "isPrototypeOf"; "propertyIsEnumerable";
   "toLocaleString"; "toString"; "valueOf";
   "__proto__"; "__defineGetter__"; "__defineSetter__";
   "__lookupGetter__"; "__lookupSetter__"].

(** What [o[k]] finds: a value the program stored, a value that comes
    from the prototype chain (with its truthiness), or [undefined]. *)
Inductive Property (A : Type) : Type :=
| Stored (a : A)
| Inherited (truthy : bool)
| Undefined.
Arguments Stored {A} a.
Arguments Inherited {A} truthy.
Arguments Undefined {A}.

(** [o[k]] on an object the program fills as a map by assignment.  The
    entries are its own properties, except the one under [__proto__]:
    an assignment there makes the value the prototype of [o], so that
    [o] inherits that value's properties ([properties a k] is the
    truthiness of the property [k] of [a], if it has one) before those
    of [Object.prototype]. *)
Definition get {A} (properties : A -> string -> option bool)
    (o : gmap string A) (k : string) : Property A :=
  match o !! k with
  | Some a => Stored a
  | None =>
      match o !! "__proto__" ≫= (fun proto => properties proto k) with
      | Some b => Inherited b
      | None => if bool_decide (k ∈ Object_prototype) then Inherited true else Undefined
      end
  end.

(** [l.map(f)] with a callback that may throw: the elements in order,
    up to the first throw. *)
Fixpoint Array_map {A B} (f : A -> completion B) (l : list A) : completion (list B) :=
  match l with
  | [] => Normal []
  | a :: rest =>
      match f a with
      | Normal b =>
          match Array_map f rest with
          | Normal bs => Normal (b :: bs)
          | Throw e => Throw e
          end
      | Throw e => Throw e
      end
  end.

(** Reading the component state. *)
Definition getState {St} : M St St := fun env => (Normal (ui env), env).

(** Calls of [async] functions that nobody awaits, listed in the order
    in which they run to completion: each runs, and a rejection is
    nobody's. *)
Fixpoint detached {St} (tasks : list (M St unit)) : M St unit :=
  match tasks with
  | [] => ret tt
  | task :: rest => fun env => detached rest (snd (task env))
  end.

(** [s.charAt(0).toUpperCase() + s.slice(1)], on the ASCII letters. *)
Definition capitalize (s : string) : string :=
  match s with
  | EmptyString => EmptyString
  | String c s' => String (upper_ascii c) s'
  end.

End Js.

(** ** The themes (the same table in every screen) *)

Record Theme : Type := mkTheme {
  background : string;
  surface : string;
  surfaceSecondary : string;
  text : string;
  textSecondary : string;
  accent : string;
  success : string;
  warning : string;
  error : string;
  border : string
}.

Module themes.
Definition dark : Theme :=
  {| background := "#0a0a0a"; surface := "#1a1a1a"; surfaceSecondary := "#2a2a2a";
     text := "#ffffff"; textSecondary := "#a0a0a0"; accent := "#3b82f6";
     success := "#10b981"; warning := "#f59e0b"; error := "#ef4444";
     border := "#333333" |}.
Definition light : Theme :=
  {| background := "#ffffff"; surface := "#f8f9fa"; surfaceSecondary := "#e9ecef";
     text := "#1f2937"; textSecondary := "#6b7280"; accent := "#3b82f6";
     success := "#10b981"; warning := "#f59e0b"; error := "#ef4444";
     border := "#e5e7eb" |}.
End themes.

(** ** The [Date] object

    Time values are milliseconds since the epoch; the day, year, month
    and weekday functions are the ones ECMA-262 defines for [Date]
    (section "Time Values and Time Range" and following), and the two
    printers are [Date.prototype.toDateString] and
    [Date.prototype.toISOString].  What the standard leaves to the host
    is a parameter: the local time zone adjustment and the parser of
    date strings. *)

Module Date.
Local Open Scope Z_scope.

Definition msPerSecond : Z := 1000.
Definition msPerMinute : Z := 60000.
Definition msPerHour : Z := 3600000.
Definition msPerDay : Z := 86400000.

Definition Day (t : Z) : Z := t / msPerDay.
Definition TimeWithinDay (t : Z) : Z := t mod msPerDay.

Definition DaysInYear (y : Z) : Z :=
  if negb (y mod 4 =? 0) then 365
  else if negb (y mod 100 =? 0) then 366
  else if negb (y mod 400 =? 0) then 365
  else 366.

Definition DayFromYear (y : Z) : Z :=
  365 * (y - 1970) + (y - 1969) / 4 - (y - 1901) / 100 + (y - 1601) / 400.

Definition TimeFromYear (y : Z) : Z := msPerDay * DayFromYear y.

(** The largest year that starts at or before [t]: a first estimate
    from the mean length of a Gregorian year, moved by one year where
    the estimate misses. *)
Definition YearFromTime (t : Z) : Z :=
  let d := Day t in
  let g := 1970 + (400 * d) / 146097 in
  if d <? DayFromYear g then g - 1
  else if DayFromYear (g + 1) <=? d then g + 1
  else g.

Definition DayWithinYear (t : Z) : Z := Day t - DayFromYear (YearFromTime t).

Definition InLeapYear (t : Z) : Z :=
  if DaysInYear (YearFromTime t) =? 366 then 1 else 0.

Definition MonthFromTime (t : Z) : Z :=
  let inLeapYear := InLeapYear t in
  let dayWithinYear := DayWithinYear t in
  if dayWithinYear <? 31 then 0
  else if dayWithinYear <? 59 + inLeapYear then 1
  else if dayWithinYear <? 90 + inLeapYear then 2
  else if dayWithinYear <? 120 + inLeapYear then 3
  else if dayWithinYear <? 151 + inLeapYear then 4
  else if dayWithinYear <? 181 + inLeapYear then 5
  else if dayWithinYear <? 212 + inLeapYear then 6
  else if dayWithinYear <? 243 + inLeapYear then 7
  else if dayWithinYear <? 273 + inLeapYear then 8
  else if dayWithinYear <? 304 + inLeapYear then 9
  else if dayWithinYear <? 334 + inLeapYear then 10
  else 11.

Definition DateFromTime (t : Z) : Z :=
  let inLeapYear := InLeapYear t in
  let dayWithinYear := DayWithinYear t in
  match MonthFromTime t with
  | 0 => dayWithinYear + 1
  | 1 => dayWithinYear - 30
  | 2 => dayWithinYear - 58 - inLeapYear
  | 3 => dayWithinYear - 89 - inLeapYear
  | 4 => dayWithinYear - 119 - inLeapYear
  | 5 => dayWithinYear - 150 - inLeapYear
  | 6 => dayWithinYear - 180 - inLeapYear
  | 7 => dayWithinYear - 211 - inLeapYear
  | 8 => dayWithinYear - 242 - inLeapYear
  | 9 => dayWithinYear - 272 - inLeapYear
  | 10 => dayWithinYear - 303 - inLeapYear
  | _ => dayWithinYear - 333 - inLeapYear
  end.

Definition WeekDay (t : Z) : Z := (Day t + 4) mod 7.

Definition HourFromTime (t : Z) : Z := (t / msPerHour) mod 24.
Definition MinFromTime (t : Z) : Z := (t / msPerMinute) mod 60.
Definition SecFromTime (t : Z) : Z := (t / msPerSecond) mod 60.
Definition msFromTime (t : Z) : Z := t mod msPerSecond.

(** [ToZeroPaddedDecimalString(n, minLength)] for [n >= 0]. *)
Definition ToZeroPaddedDecimalString (n : Z) (minLength : nat) : string :=
  let digits := N.to_uint (Z.to_N n) in
  NilEmpty.string_of_uint (Nat.iter (minLength - nb_digits digits) D0 digits).

Definition weekdayName (w : Z) : string :=
  match w with
  | 0 => "Sun" | 1 => "Mon" | 2 => "Tue" | 3 => "Wed"
  | 4 => "Thu" | 5 => "Fri" | _ => "Sat"
  end.

Definition monthName (m : Z) : string :=
  match m with
  | 0 => "Jan" | 1 => "Feb" | 2 => "Mar" | 3 => "Apr"
  | 4 => "May" | 5 => "Jun" | 6 => "Jul" | 7 => "Aug"
  | 8 => "Sep" | 9 => "Oct" | 10 => "Nov" | _ => "Dec"
  end.

(** [DateString(tv)]: weekday, month, day of the month, year. *)
Definition DateString (tv : Z) : string :=
  let yv := YearFromTime tv in
  let yearSign := if 0 <=? yv then "" else "-" in
  let paddedYear := ToZeroPaddedDecimalString (Z.abs yv) 4 in
  weekdayName (WeekDay tv) +:+ " " +:+ monthName (MonthFromTime tv) +:+ " "
    +:+ ToZeroPaddedDecimalString (DateFromTime tv) 2 +:+ " "
    +:+ yearSign +:+ paddedYear.

(** The host: [LocalTZA t] is the offset of local time from UTC, in
    milliseconds, at the UTC time [t]; [parse] is [Date.parse], [None]
    for the strings it answers [NaN]. *)
Record Host : Type := mkHost {
  LocalTZA : Z -> Z;
  parse : string -> option Z
}.

Definition LocalTime (h : Host) (t : Z) : Z := t + LocalTZA h t.

(** A [Date] object holds a time value, or [NaN] ([None]). *)
Definition t : Type := option Z.

(** [TimeClip]: a time value beyond 8.64e15 ms from the epoch is no
    time value. *)
Definition TimeClip (time : Z) : option Z :=
  if Z.abs time <=? 8640000000000000 then Some time else None.

(** [new Date(dateString)] *)
Definition of_string (h : Host) (s : string) : t := parse h s ≫= TimeClip.

(** [new Date()] when the clock reads [now]. *)
Definition of_now (now : Z) : t := Some now.

(** [Date.prototype.toDateString] *)
Definition toDateString (h : Host) (d : t) : string :=
  match d with
  | None => "Invalid Date"
  | Some tv => DateString (LocalTime h tv)
  end.

(** [Date.prototype.toISOString], on a valid date (it throws a
    [RangeError] on [NaN]); the year has four digits from 0 to 9999
    and a sign and six digits outside. *)
Definition ISOString (tv : Z) : string :=
  let yv := YearFromTime tv in
  let year :=
    if (0 <=? yv) && (yv <=? 9999) then ToZeroPaddedDecimalString yv 4
    else (if 0 <=? yv then "+" else "-") +:+ ToZeroPaddedDecimalString (Z.abs yv) 6 in
  year +:+ "-" +:+ ToZeroPaddedDecimalString (MonthFromTime tv + 1) 2
    +:+ "-" +:+ ToZeroPaddedDecimalString (DateFromTime tv) 2
    +:+ "T" +:+ ToZeroPaddedDecimalString (HourFromTime tv) 2
    +:+ ":" +:+ ToZeroPaddedDecimalString (MinFromTime tv) 2
    +:+ ":" +:+ ToZeroPaddedDecimalString (SecFromTime tv) 2
    +:+ "." +:+ ToZeroPaddedDecimalString (msFromTime tv) 3 +:+ "Z".

Definition toISOString (d : t) : Js.completion string :=
  match d with
  | None => Js.Throw "RangeError: Invalid time value"
  | Some tv => Js.Normal (ISOString tv)
  end.

(** *** A reference host

    A host on a fixed offset from UTC (no daylight saving) that reads
    the date-time form [YYYY-MM-DDTHH:mm:ss], with an optional
    [.sss] and an optional [Z]; without [Z] the string is local time.
    It serves to run the screens on concrete instants. *)

Definition digitValue (c : ascii) : option Z :=
  let n := Z.of_nat (nat_of_ascii c) in
  if (48 <=? n) && (n <=? 57) then Some (n - 48) else None.

Fixpoint decimal (acc : Z) (s : string) : option Z :=
  match s with
  | EmptyString => Some acc
  | String c s' =>
      match digitValue c with
      | Some d => decimal (10 * acc + d) s'
      | None => None
      end
  end.

Definition field (s : string) (from len : nat) : option Z :=
  let f := String.substring from len s in
  if Nat.eqb (String.length f) len then decimal 0 f else None.

Definition is_at (s : string) (i : nat) (c : ascii) : bool :=
  match String.get i s with
  | Some x => Ascii.eqb x c
  | None => false
  end.

(** The day within the year on which month [m] (from 0) starts. *)
Definition monthStart (y m : Z) : Z :=
  let inLeapYear := if DaysInYear y =? 366 then 1 else 0 in
  match m with
  | 0 => 0 | 1 => 31 | 2 => 59 + inLeapYear | 3 => 90 + inLeapYear
  | 4 => 120 + inLeapYear | 5 => 151 + inLeapYear | 6 => 181 + inLeapYear
  | 7 => 212 + inLeapYear | 8 => 243 + inLeapYear | 9 => 273 + inLeapYear
  | 10 => 304 + inLeapYear | 11 => 334 + inLeapYear
  | _ => 365 + inLeapYear
  end.

Definition MakeDay (year month date : Z) : Z :=
  DayFromYear year + monthStart year month + date - 1.

Definition MakeTime (hour min sec ms : Z) : Z :=
  hour * msPerHour + min * msPerMinute + sec * msPerSecond + ms.

Definition MakeDate (day time : Z) : Z := day * msPerDay + time.

(** The instant a string denotes when read as UTC, and whether it ends
    in [Z]. *)
Definition parse_fields (s : string) : option (Z * bool) :=
  year ← field s 0 4;
  month ← field s 5 2;
  day ← field s 8 2;
  hour ← field s 11 2;
  minute ← field s 14 2;
  second ← field s 17 2;
  let rest := String.substring 19 (String.length s - 19) s in
  '(ms, zone) ← (if is_at rest 0 "."
                 then ms ← field rest 1 3;
                      Some (ms, String.substring 4 (String.length rest - 4) rest)
                 else Some (0, rest));
  if is_at s 4 "-" && is_at s 7 "-" && is_at s 10 "T" && is_at s 13 ":" && is_at s 16 ":"
     && (1 <=? month) && (month <=? 12)
     && (1 <=? day) && (day <=? monthStart year month - monthStart year (month - 1))
     && (hour <=? 23) && (minute <=? 59) && (second <=? 59)
  then
    let tv := MakeDate (MakeDay year (month - 1) day) (MakeTime hour minute second ms) in
    if String.eqb zone "Z" then Some (tv, true)
    else if String.eqb zone "" then Some (tv, false)
    else None
  else None.

Definition parse_iso (offset : Z) (s : string) : option Z :=
  '(tv, utc) ← parse_fields s;
  Some (if utc : bool then tv else tv - offset).

Definition fixed_offset (offset : Z) : Host :=
  {| LocalTZA := fun _ => offset; parse := parse_iso offset |}.

End Date.

(** ** The tracked-airdrop screen (src/unnamed/part_000) *)

Module MyAirdrops.

Module UserAirdropStatus.
Record t : Type := mk {
  id : string;
  user_id : string;
  airdrop_id : string;
  status : string;
  completed_tasks : list string;
  progress_percentage : Z;
  wallet_address : option string;
  eligibility_checked : bool;
  is_eligible : option bool;
  reminder_enabled : bool;
  notes : option string;
  created_at : string;
  updated_at : string
}.
End UserAirdropStatus.

Module Airdrop.
Record t : Type := mk {
  id : string;
  name : string;
  description : string;
  blockchain : string;
  status : string;
  reward_amount : option string;
  reward_token : option string;
  deadline : option string;
  reputation_score : Z;
  (* [tasks: any[]]: the screen reads its length only *)
  tasks : list string
}.

(** The truthiness of the property [k] of a definition, if it has one:
    the properties the interface declares, the optional ones when they
    are there. *)
Definition property (a : t) (k : string) : option bool :=
  let nonempty (s : string) := negb (String.eqb s "") in
  if String.eqb k "id" then Some (nonempty (id a))
  else if String.eqb k "name" then Some (nonempty (name a))
  else if String.eqb k "description" then Some (nonempty (description a))
  else if String.eqb k "blockchain" then Some (nonempty (blockchain a))
  else if String.eqb k "status" then Some (nonempty (status a))
  else if String.eqb k "reward_amount" then nonempty <$> reward_amount a
  else if String.eqb k "reward_token" then nonempty <$> reward_token a
  else if String.eqb k "deadline" then nonempty <$> deadline a
  else if String.eqb k "reputation_score" then Some (negb (reputation_score a =? 0)%Z)
  else if String.eqb k "tasks" then Some true
  else None.
End Airdrop.

(** The component state: one field per [useState]; [airdropDetails] is
    the plain object the load fills as a map from airdrop id to its
    definition, one assignment per definition that arrived, and the
    card reads with [Js.get]. *)
Record State : Type := mkState {
  userAirdrops : list UserAirdropStatus.t;
  airdropDetails : gmap string Airdrop.t;
  loading : bool;
  refreshing : bool;
  selectedFilter : string
}.

Definition initial : State :=
  {| userAirdrops := []; airdropDetails := ∅; loading := true;
     refreshing := false; selectedFilter := "all" |}.

Definition setUserAirdrops (data : list UserAirdropStatus.t) (st : State) : State :=
  mkState data (airdropDetails st) (loading st) (refreshing st) (selectedFilter st).
Definition setAirdropDetails (details : gmap string Airdrop.t) (st : State) : State :=
  mkState (userAirdrops st) details (loading st) (refreshing st) (selectedFilter st).
Definition setLoading (b : bool) (st : State) : State :=
  mkState (userAirdrops st) (airdropDetails st) b (refreshing st) (selectedFilter st).
Definition setRefreshing (b : bool) (st : State) : State :=
  mkState (userAirdrops st) (airdropDetails st) (loading st) b (selectedFilter st).
Definition setSelectedFilter (f : string) (st : State) : State :=
  mkState (userAirdrops st) (airdropDetails st) (loading st) (refreshing st) f.

Definition theme : Theme := themes.dark.

(** *** Loading *)

(** A detail task: a list entry with the way its detail fetch settles. *)
Definition DetailTask : Type := UserAirdropStatus.t * Js.Fetched Airdrop.t unit.

(** What the network answers during one load: the list request, the
    detail request of the [i]-th list entry, and the order in which
    the concurrent detail tasks run to completion. *)
Record Network : Type := mkNetwork {
  userAirdropsResponse : Js.Fetched (list UserAirdropStatus.t) unit;
  airdropResponse : nat -> UserAirdropStatus.t -> Js.Fetched Airdrop.t unit;
  completionOrder : list DetailTask -> list DetailTask
}.

(** The callback of [data.map(async (userAirdrop) => ...)], run on the
    local [details] object. *)
Definition fetchDetail (task : DetailTask) : Js.M (gmap string Airdrop.t) unit :=
  let '(userAirdrop, fetched) := task in
  Js.try_catch
    (airdropResponse ← Js.await fetched;
     match airdropResponse with
     | Js.Ok2xx json =>
         airdropData ← Js.await json;
         Js.setState (fun details => <[UserAirdropStatus.airdrop_id userAirdrop := airdropData]> details)
     | Js.NotOk _ => mret tt
     end)
    (fun error => Js.console_error "Error fetching airdrop details:" error).

Definition loadUserAirdrops (net : Network) : Js.M State unit :=
  Js.try_finally
    (Js.try_catch
       (response ← Js.await (userAirdropsResponse net);
        match response with
        | Js.Ok2xx json =>
            data ← Js.await json;
            Js.setState (setUserAirdrops data);;
            (* Fetch details for each airdrop *)
            let tasks := imap (fun i userAirdrop => (userAirdrop, airdropResponse net i userAirdrop)) data in
            '(_, details) ← Js.with_local ∅
               (Js.Promise_all (fetchDetail <$> completionOrder net tasks));
            Js.setState (setAirdropDetails details)
        | Js.NotOk _ =>
            Js.console_error "Failed to fetch user airdrops" ""
        end)
       (fun error => Js.console_error "Error fetching user airdrops:" error))
    (Js.setState (setLoading false)).

Definition handleRefresh (net : Network) : Js.M State unit :=
  Js.setState (setRefreshing true);;
  loadUserAirdrops net;;
  Js.setState (setRefreshing false).

(** *** Derivations *)

Definition getStatusColor (status : string) : string :=
  if String.eqb status "completed" then success theme
  else if String.eqb status "in_progress" then warning theme
  else if String.eqb status "not_started" then textSecondary theme
  else textSecondary theme.

Definition getStatusIcon (status : string) : string :=
  if String.eqb status "completed" then "checkmark-circle"
  else if String.eqb status "in_progress" then "time"
  else if String.eqb status "not_started" then "ellipse-outline"
  else "ellipse-outline".

Definition getProgressBarColor (percentage : Z) : string :=
  if (percentage =? 100)%Z then success theme
  else if (percentage >=? 50)%Z then warning theme
  else accent theme.

Definition filteredAirdrops (st : State) : list UserAirdropStatus.t :=
  List.filter
    (fun userAirdrop =>
       if String.eqb (selectedFilter st) "all" then true
       else String.eqb (UserAirdropStatus.status userAirdrop) (selectedFilter st))
    (userAirdrops st).

(** The three numbers of the header's statistics row. *)
Record Header : Type := mkHeader {
  tracking : nat;
  completed : nat;
  inProgress : nat
}.

Definition renderHeader (st : State) : Header :=
  {| tracking := length (userAirdrops st);
     completed :=
       length (List.filter (fun ua => String.eqb (UserAirdropStatus.status ua) "completed")
                 (userAirdrops st));
     inProgress :=
       length (List.filter (fun ua => String.eqb (UserAirdropStatus.status ua) "in_progress")
                 (userAirdrops st)) |}.

(** What a card shows: the view-model that joins a tracking record
    with its airdrop definition. *)
Record Card : Type := mkCard {
  key : string;
  onPress : string;
  cardTitle : string;
  cardBlockchain : string;
  statusIcon : string;
  statusColor : string;
  progressPercent : Z;
  progressBarColor : string;
  tasksCompleted : nat;
  tasksTotal : nat;
  statusText : string;
  eligibility : option bool;
  reminder : bool;
  rewardText : option string;
  deadlineText : option string
}.

Definition viewModel (toUpperCase : string -> string)
    (userAirdrop : UserAirdropStatus.t) (airdrop : Airdrop.t) : Card :=
  {| key := UserAirdropStatus.id userAirdrop;
     onPress := "/airdrop/" +:+ UserAirdropStatus.airdrop_id userAirdrop;
     cardTitle := Airdrop.name airdrop;
     cardBlockchain := toUpperCase (Airdrop.blockchain airdrop);
     statusIcon := getStatusIcon (UserAirdropStatus.status userAirdrop);
     statusColor := getStatusColor (UserAirdropStatus.status userAirdrop);
     progressPercent := UserAirdropStatus.progress_percentage userAirdrop;
     progressBarColor := getProgressBarColor (UserAirdropStatus.progress_percentage userAirdrop);
     tasksCompleted := length (UserAirdropStatus.completed_tasks userAirdrop);
     tasksTotal := length (Airdrop.tasks airdrop);
     statusText := toUpperCase (Js.replace "_" " " (UserAirdropStatus.status userAirdrop));
     eligibility :=
       if UserAirdropStatus.eligibility_checked userAirdrop
       then Some (default false (UserAirdropStatus.is_eligible userAirdrop))
       else None;
     reminder := UserAirdropStatus.reminder_enabled userAirdrop;
     rewardText :=
       if Js.truthy (Airdrop.reward_amount airdrop) || Js.truthy (Airdrop.reward_token airdrop)
       then Some (Js.text (Airdrop.reward_amount airdrop) +:+ " "
                    +:+ Js.text (Airdrop.reward_token airdrop))
       else None;
     (* the screen prints the deadline through [toLocaleDateString] *)
     deadlineText :=
       if Js.truthy (Airdrop.deadline airdrop) then Airdrop.deadline airdrop else None |}.

(** [renderAirdropCard]: [null] while [airdropDetails] has nothing
    truthy under the airdrop id, and the card when it has the
    definition.  When what it has there is no definition (a member of
    [Object.prototype], a property of a definition stored under
    [__proto__]), [airdrop.blockchain] is [undefined] and the call of
    [toUpperCase] on it throws a [TypeError]. *)
Definition renderAirdropCard (toUpperCase : string -> string)
    (st : State) (userAirdrop : UserAirdropStatus.t) : Js.completion (option Card) :=
  match Js.get Airdrop.property (airdropDetails st) (UserAirdropStatus.airdrop_id userAirdrop) with
  | Js.Undefined | Js.Inherited false => Js.Normal None
  | Js.Stored airdrop => Js.Normal (Some (viewModel toUpperCase userAirdrop airdrop))
  | Js.Inherited true => Js.Throw Js.TypeError
  end.

(** [filteredAirdrops.map(renderAirdropCard)] as mounted (a card that
    throws ends the render), and the number in the section title,
    [filteredAirdrops.length]. *)
Definition airdropsList (toUpperCase : string -> string) (st : State) : Js.completion (list Card) :=
  match Js.Array_map (renderAirdropCard toUpperCase st) (filteredAirdrops st) with
  | Js.Normal children => Js.Normal (Js.mounted children)
  | Js.Throw e => Js.Throw e
  end.

Definition sectionCount (st : State) : nat := length (filteredAirdrops st).


(** *** The reminder bell *)

Definition toggleReminder (airdropId : string) (currentStatus : bool) : Js.M State unit :=
  (* In a real app, this would call an API to update reminder settings *)
  Js.Alert_alert "Reminder Settings"
    ("Reminders " +:+ (if currentStatus then "disabled" else "enabled") +:+ " for this airdrop").

(** *** The filter chips, the list body and the screen *)

Definition chips : list string := ["all"; "not_started"; "in_progress"; "completed"].

Record Chip : Type := mkChip {
  chipKey : string;
  chipLabel : string;
  chipBackground : string;
  chipTextColor : string
}.

Definition renderFilters (st : State) : list Chip :=
  (fun filter =>
     {| chipKey := filter;
        chipLabel :=
          if String.eqb filter "not_started" then "Not Started"
          else if String.eqb filter "in_progress" then "In Progress"
          else Js.capitalize filter;
        chipBackground :=
          if String.eqb (selectedFilter st) filter then accent theme else surfaceSecondary theme;
        chipTextColor :=
          if String.eqb (selectedFilter st) filter then "white" else text theme |})
  <$> chips.

(** What stands below the chips: the empty state, or the section title
    with its count and the cards. *)
Inductive ListBody : Type :=
| EmptyState (emptyTitle emptyText : string) (exploreButton : bool)
| Tracked (titleCount : nat) (cards : list Card).

Definition renderList (toUpperCase : string -> string) (st : State) : Js.completion ListBody :=
  if Nat.eqb (length (filteredAirdrops st)) 0 then
    Js.Normal
      (EmptyState "No Tracked Airdrops"
         (if String.eqb (selectedFilter st) "all"
          then "You haven't started tracking any airdrops yet."
          else "No airdrops with " +:+ Js.replace "_" " " (selectedFilter st) +:+ " status.")
         (String.eqb (selectedFilter st) "all"))
  else
    match airdropsList toUpperCase st with
    | Js.Normal cards => Js.Normal (Tracked (length (filteredAirdrops st)) cards)
    | Js.Throw e => Js.Throw e
    end.

Inductive Screen : Type :=
| LoadingScreen
| Main (header : Header) (filters : list Chip) (body : ListBody).

(** The render of the component: what it returns, or what it throws. *)
Definition screen (toUpperCase : string -> string) (st : State) : Js.completion Screen :=
  if loading st then Js.Normal LoadingScreen
  else
    match renderList toUpperCase st with
    | Js.Normal body => Js.Normal (Main (renderHeader st) (renderFilters st) body)
    | Js.Throw e => Js.Throw e
    end.

(** *** The events of the screen

    The effect on mount, and what the user can do once the main screen
    is there: pull to refresh, press the [i]-th chip, press the bell of
    a card.  Each event settles before the next. *)
Inductive Event : Type :=
| Mount (net : Network)
| PullToRefresh (net : Network)
| PressChip (i : nat)
| PressReminder (userAirdrop : UserAirdropStatus.t).

Definition handle (e : Event) : Js.M State unit :=
  match e with
  | Mount net => loadUserAirdrops net
  | PullToRefresh net => handleRefresh net
  | PressChip i =>
      match chips !! i with
      | Some filter => Js.setState (setSelectedFilter filter)
      | None => mret tt
      end
  | PressReminder userAirdrop =>
      toggleReminder (UserAirdropStatus.airdrop_id userAirdrop)
        (UserAirdropStatus.reminder_enabled userAirdrop)
  end.

(** A session: the events one after the other; an exception that
    escapes a handler stops nothing (it is an unhandled rejection). *)
Definition session (events : list Event) : Js.M State unit :=
  Js.detached (handle <$> events).

End MyAirdrops.

(** ** The check-in endpoint (shared by the profile and catalog screens) *)

Module Checkin.
(** The 2xx body of [POST /api/users/{userId}/checkin]. *)
Record Result : Type := mkResult {
  points_earned : Z;
  streak : Z;
  total_points : Z
}.

(** The body of a failure. *)
Record Failure : Type := mkFailure {
  message : option string
}.

Definition successMessage (result : Result) : string :=
  "You earned " +:+ Js.show (points_earned result) +:+ " points!" +:+ String "010" ""
    +:+ "Streak: " +:+ Js.show (streak result) +:+ " days" +:+ String "010" ""
    +:+ "Total Points: " +:+ Js.show (total_points result).
End Checkin.

(** ** The profile screen (src/unnamed/part_001) *)

Module Profile.

Module Preferences.
Record t : Type := mk {
  theme : string;
  notifications : bool;
  preferred_blockchains : list string
}.
End Preferences.

Module User.
Record t : Type := mk {
  id : string;
  wallet_addresses : list string;
  daily_streak : Z;
  total_points : Z;
  last_checkin : option string;
  (* read through [preferences?.], so possibly missing *)
  preferences : option Preferences.t;
  created_at : string
}.
End User.

Record State : Type := mkState {
  user : option User.t;
  loading : bool;
  isDarkMode : bool;
  notificationsEnabled : bool
}.

Definition initial : State :=
  {| user := None; loading := true; isDarkMode := true; notificationsEnabled := true |}.

Definition setUser (f : option User.t -> option User.t) (st : State) : State :=
  mkState (f (user st)) (loading st) (isDarkMode st) (notificationsEnabled st).
Definition setLoading (b : bool) (st : State) : State :=
  mkState (user st) b (isDarkMode st) (notificationsEnabled st).
Definition setIsDarkMode (b : bool) (st : State) : State :=
  mkState (user st) (loading st) b (notificationsEnabled st).
Definition setNotificationsEnabled (b : bool) (st : State) : State :=
  mkState (user st) (loading st) (isDarkMode st) b.

Definition theme (st : State) : Theme :=
  if isDarkMode st then themes.dark else themes.light.

Definition loadUserData (fetched : Js.Fetched User.t unit) : Js.M State unit :=
  Js.try_finally
    (Js.try_catch
       (response ← Js.await fetched;
        match response with
        | Js.Ok2xx json =>
            userData ← Js.await json;
            Js.setState (setUser (fun _ => Some userData));;
            Js.setState (setIsDarkMode
               (match User.preferences userData with
                | Some p => String.eqb (Preferences.theme p) "dark"
                | None => false
                end));;
            Js.setState (setNotificationsEnabled
               (match User.preferences userData with
                | Some p => Preferences.notifications p
                | None => true
                end))
        | Js.NotOk _ => mret tt
        end)
       (fun error => Js.console_error "Error loading user data:" error))
    (Js.setState (setLoading false)).

(** The updater of [setUser(prev => prev ? {...prev, ...} : null)]. *)
Definition checkedIn (result : Checkin.Result) (now : Z) (prev : option User.t) : option User.t :=
  match prev with
  | Some prev =>
      Some {| User.id := User.id prev;
              User.wallet_addresses := User.wallet_addresses prev;
              User.daily_streak := Checkin.streak result;
              User.total_points := Checkin.total_points result;
              User.last_checkin := Some (Date.ISOString now);
              User.preferences := User.preferences prev;
              User.created_at := User.created_at prev |}
  | None => None
  end.

(** [handleDailyCheckin], the request settling as [fetched] while the
    clock reads [now]. *)
Definition handleDailyCheckin (fetched : Js.Fetched Checkin.Result Checkin.Failure) (now : Z)
  : Js.M State unit :=
  Js.try_catch
    (response ← Js.await fetched;
     match response with
     | Js.Ok2xx json =>
         result ← Js.await json;
         Js.setState (setUser (checkedIn result now));;
         Js.Alert_alert "Check-in Successful! ðŸŽ‰" (Checkin.successMessage result)
     | Js.NotOk json =>
         error ← Js.await json;
         Js.Alert_alert "Check-in Failed"
           (Js.or_else (Checkin.message error) "Something went wrong")
     end)
    (fun error =>
       Js.console_error "Error during checkin:" error;;
       Js.Alert_alert "Error" "Failed to complete check-in").

Definition toggleTheme (st : State) : State := setIsDarkMode (negb (isDarkMode st)) st.
Definition toggleNotifications (st : State) : State :=
  setNotificationsEnabled (negb (notificationsEnabled st)) st.

(** [canCheckinToday], on a host [h] whose clock reads [now]. *)
Definition canCheckinToday (h : Date.Host) (now : Z) (st : State) : bool :=
  match user st ≫= User.last_checkin with
  | None => true
  | Some last_checkin =>
      if String.eqb last_checkin "" then true
      else
        let lastCheckin := Date.of_string h last_checkin in
        let today := Date.of_now now in
        negb (String.eqb (Date.toDateString h lastCheckin) (Date.toDateString h today))
  end.


(** *** What the screen shows *)

Inductive Screen : Type :=
| LoadingScreen
| FailedToLoad
| Loaded (user : User.t).

Definition screen (st : State) : Screen :=
  if loading st then LoadingScreen
  else match user st with
       | None => FailedToLoad
       | Some u => Loaded u
       end.

(** The check-in button: whether it can be pressed, and its label. *)
Definition checkinButton (h : Date.Host) (now : Z) (st : State) : bool * string :=
  (canCheckinToday h now st,
   if canCheckinToday h now st then "Check in Today" else "Already Checked In").

End Profile.

(** ** The catalog screen (src/frontend/app/tabs/_layout.tsx, [Index]) *)

Module Index.

Module Airdrop.
Record t : Type := mk {
  id : string;
  name : string;
  description : string;
  blockchain : string;
  status : string;
  reward_amount : option string;
  reward_token : option string;
  deadline : option string;
  reputation_score : Z;
  logo_url : option string
}.
End Airdrop.

Module User.
Record t : Type := mk {
  id : string;
  total_points : Z;
  daily_streak : Z;
  last_checkin : option string
}.
End User.

Record State : Type := mkState {
  isDarkMode : bool;
  airdrops : list Airdrop.t;
  user : option User.t;
  loading : bool;
  refreshing : bool;
  selectedFilter : string;
  showCheckinModal : bool
}.

Definition initial : State :=
  {| isDarkMode := true; airdrops := []; user := None; loading := true;
     refreshing := false; selectedFilter := "all"; showCheckinModal := false |}.

Definition setAirdrops (data : list Airdrop.t) (st : State) : State :=
  mkState (isDarkMode st) data (user st) (loading st) (refreshing st)
    (selectedFilter st) (showCheckinModal st).
Definition setUser (f : option User.t -> option User.t) (st : State) : State :=
  mkState (isDarkMode st) (airdrops st) (f (user st)) (loading st) (refreshing st)
    (selectedFilter st) (showCheckinModal st).
Definition setLoading (b : bool) (st : State) : State :=
  mkState (isDarkMode st) (airdrops st) (user st) b (refreshing st)
    (selectedFilter st) (showCheckinModal st).
Definition setRefreshing (b : bool) (st : State) : State :=
  mkState (isDarkMode st) (airdrops st) (user st) (loading st) b
    (selectedFilter st) (showCheckinModal st).
Definition setSelectedFilter (f : string) (st : State) : State :=
  mkState (isDarkMode st) (airdrops st) (user st) (loading st) (refreshing st)
    f (showCheckinModal st).

Definition theme (st : State) : Theme :=
  if isDarkMode st then themes.dark else themes.light.

Record Network : Type := mkNetwork {
  airdropsResponse : Js.Fetched (list Airdrop.t) unit;
  userResponse : Js.Fetched User.t unit;
  (* which of the two concurrent fetches runs to completion first *)
  userSettlesFirst : bool
}.

Definition fetchAirdrops (fetched : Js.Fetched (list Airdrop.t) unit) : Js.M State unit :=
  Js.try_catch
    (response ← Js.await fetched;
     match response with
     | Js.Ok2xx json =>
         data ← Js.await json;
         Js.setState (setAirdrops data)
     | Js.NotOk _ => Js.console_error "Failed to fetch airdrops" ""
     end)
    (fun error => Js.console_error "Error fetching airdrops:" error).

Definition fetchUser (fetched : Js.Fetched User.t unit) : Js.M State unit :=
  Js.try_catch
    (response ← Js.await fetched;
     match response with
     | Js.Ok2xx json =>
         data ← Js.await json;
         Js.setState (setUser (fun _ => Some data))
     | Js.NotOk _ => mret tt
     end)
    (fun error => Js.console_error "Error fetching user:" error).

Definition loadInitialData (net : Network) : Js.M State unit :=
  Js.Promise_all
    (if userSettlesFirst net
     then [fetchUser (userResponse net); fetchAirdrops (airdropsResponse net)]
     else [fetchAirdrops (airdropsResponse net); fetchUser (userResponse net)]);;
  Js.setState (setLoading false).

(** The updater of [setUser(prev => prev ? {...prev, ...} : null)]. *)
Definition checkedIn (result : Checkin.Result) (prev : option User.t) : option User.t :=
  match prev with
  | Some prev =>
      Some {| User.id := User.id prev;
              User.total_points := Checkin.total_points result;
              User.daily_streak := Checkin.streak result;
              User.last_checkin := User.last_checkin prev |}
  | None => None
  end.

Definition handleDailyCheckin (fetched : Js.Fetched Checkin.Result Checkin.Failure)
  : Js.M State unit :=
  Js.try_catch
    (response ← Js.await fetched;
     match response with
     | Js.Ok2xx json =>
         result ← Js.await json;
         Js.setState (setUser (checkedIn result));;
         Js.Alert_alert "Check-in Successful! 🎉" (Checkin.successMessage result)
     | Js.NotOk json =>
         error ← Js.await json;
         Js.Alert_alert "Check-in Failed"
           (Js.or_else (Checkin.message error) "Something went wrong")
     end)
    (fun error =>
       Js.console_error "Error during checkin:" error;;
       Js.Alert_alert "Error" "Failed to complete check-in").

Definition getStatusColor (st : State) (status : string) : string :=
  if String.eqb status "active" then success (theme st)
  else if String.eqb status "upcoming" then warning (theme st)
  else if String.eqb status "expired" then error (theme st)
  else textSecondary (theme st).

Definition filteredAirdrops (st : State) : list Airdrop.t :=
  List.filter
    (fun airdrop =>
       if String.eqb (selectedFilter st) "all" then true
       else String.eqb (Airdrop.status airdrop) (selectedFilter st))
    (airdrops st).


Definition handleRefresh (net : Network) : Js.M State unit :=
  Js.setState (setRefreshing true);;
  loadInitialData net;;
  Js.setState (setRefreshing false).

End Index.

(** ** The detail screen (src/frontend/app/airdrop/[id].tsx) *)

Module AirdropDetail.

Module Task.
Record t : Type := mk {
  id : string;
  title : string;
  description : string;
  type : string;
  url : option string;
  required : bool
}.
End Task.

Module Airdrop.
Record t : Type := mk {
  id : string;
  name : string;
  description : string;
  blockchain : string;
  status : string;
  reward_amount : option string;
  reward_token : option string;
  deadline : option string;
  snapshot_date : option string;
  listing_date : option string;
  official_url : string;
  logo_url : option string;
  tasks : list Task.t;
  requirements : list string;
  social_links : gmap string string;
  reputation_score : Z
}.
End Airdrop.

(** The state cells the initial load and the status badge read or
    write. *)
Record State : Type := mkState {
  airdrop : option Airdrop.t;
  loading : bool;
  completedTasks : list string;
  tracking : bool
}.

Definition initial : State :=
  {| airdrop := None; loading := true; completedTasks := []; tracking := false |}.

Definition setAirdrop (data : Airdrop.t) (st : State) : State :=
  mkState (Some data) (loading st) (completedTasks st) (tracking st).
Definition setLoading (b : bool) (st : State) : State :=
  mkState (airdrop st) b (completedTasks st) (tracking st).

Definition theme : Theme := themes.dark.

Definition fetchAirdropDetails (fetched : Js.Fetched Airdrop.t unit) : Js.M State unit :=
  Js.try_finally
    (Js.try_catch
       (response ← Js.await fetched;
        match response with
        | Js.Ok2xx json =>
            data ← Js.await json;
            Js.setState (setAirdrop data)
        | Js.NotOk _ => Js.Alert_alert "Error" "Failed to load airdrop details"
        end)
       (fun error =>
          Js.console_error "Error fetching airdrop:" error;;
          Js.Alert_alert "Error" "Network error occurred"))
    (Js.setState (setLoading false)).

Definition getStatusColor (status : string) : string :=
  if String.eqb status "active" then success theme
  else if String.eqb status "upcoming" then warning theme
  else if String.eqb status "expired" then error theme
  else textSecondary theme.


(** *** Tracking and the task checklist *)

Definition setTracking (b : bool) (st : State) : State :=
  mkState (airdrop st) (loading st) (completedTasks st) b.
Definition setCompletedTasks (f : list string -> list string) (st : State) : State :=
  mkState (airdrop st) (loading st) (f (completedTasks st)) (tracking st).

(** [fetchUserStatus], for the route parameter [id]; the list is the one
    the tracked-airdrop screen loads. *)
Definition fetchUserStatus (id : string)
  (fetched : Js.Fetched (list MyAirdrops.UserAirdropStatus.t) unit) : Js.M State unit :=
  Js.try_catch
    (response ← Js.await fetched;
     match response with
     | Js.Ok2xx json =>
         userAirdrops ← Js.await json;
         match List.find
                 (fun ua => String.eqb (MyAirdrops.UserAirdropStatus.airdrop_id ua) id)
                 userAirdrops with
         | Some currentAirdrop =>
             Js.setState (setTracking true);;
             Js.setState (setCompletedTasks
                            (fun _ => MyAirdrops.UserAirdropStatus.completed_tasks currentAirdrop))
         | None => mret tt
         end
     | Js.NotOk _ => mret tt
     end)
    (fun error => Js.console_error "Error fetching user status:" error).

(** The effect on mount: with a route parameter, both loads are called
    and none is awaited. *)
Definition mount (id : option string)
  (details : Js.Fetched Airdrop.t unit)
  (status : Js.Fetched (list MyAirdrops.UserAirdropStatus.t) unit)
  (statusSettlesFirst : bool) : Js.M State unit :=
  if Js.truthy id then
    Js.detached
      (if statusSettlesFirst
       then [fetchUserStatus (Js.text id) status; fetchAirdropDetails details]
       else [fetchAirdropDetails details; fetchUserStatus (Js.text id) status])
  else mret tt.

(** [handleTrackAirdrop]: the response body is never read. *)
Definition handleTrackAirdrop {A E : Type} (fetched : Js.Fetched A E) : Js.M State unit :=
  Js.try_catch
    (response ← Js.await fetched;
     if Js.ok response then
       Js.setState (setTracking true);;
       Js.Alert_alert "Success" "Airdrop is now being tracked!"
     else Js.Alert_alert "Error" "Failed to track airdrop")
    (fun error =>
       Js.console_error "Error tracking airdrop:" error;;
       Js.Alert_alert "Error" "Network error occurred").

(** The 2xx body of the task-completion endpoint. *)
Record Completion : Type := mkCompletion {
  progress : Z
}.

Definition handleCompleteTask (taskId : string) (fetched : Js.Fetched Completion unit)
  : Js.M State unit :=
  Js.try_catch
    (response ← Js.await fetched;
     match response with
     | Js.Ok2xx json =>
         result ← Js.await json;
         Js.setState (setCompletedTasks (fun prev => prev ++ [taskId]));;
         Js.Alert_alert "Task Completed! ✅" ("Progress: " +:+ Js.show (progress result) +:+ "%")
     | Js.NotOk _ => Js.Alert_alert "Error" "Failed to complete task"
     end)
    (fun error =>
       Js.console_error "Error completing task:" error;;
       Js.Alert_alert "Error" "Network error occurred").

Definition taskIcons : gmap string string :=
  list_to_map
    [("social", "people"); ("staking", "wallet"); ("snapshot", "camera");
     ("trading", "swap-horizontal"); ("other", "checkmark-circle")].

(** What [getTaskIcon] returns, [icons[type] || 'checkmark-circle']: an
    icon name, or, for a type that names a member of
    [Object.prototype], that member, which is no name. *)
Inductive IconName : Type :=
| Icon (name : string)
| NoName.

Definition getTaskIcon (type : string) : IconName :=
  match Js.get (fun _ _ => None) taskIcons type with
  | Js.Stored icon => Icon (if String.eqb icon "" then "checkmark-circle" else icon)
  | Js.Inherited true => NoName
  | Js.Inherited false | Js.Undefined => Icon "checkmark-circle"
  end.

(** [completedTasks.includes(task.id)] *)
Definition isCompleted (st : State) (task : Task.t) : bool :=
  bool_decide (Task.id task ∈ completedTasks st).

(** A row of the checklist; the complete button is there while the
    airdrop is tracked, and is disabled on a completed task. *)
Record TaskRow : Type := mkTaskRow {
  rowKey : string;
  rowIcon : IconName;
  rowIconColor : string;
  rowTitle : string;
  rowTitleColor : string;
  requiredBadge : bool;
  rowDescription : string;
  openButton : option string;
  completeButton : option (bool * string)
}.

Definition taskRow (st : State) (task : Task.t) : TaskRow :=
  let isCompleted := isCompleted st task in
  {| rowKey := Task.id task;
     rowIcon := getTaskIcon (Task.type task);
     rowIconColor := if isCompleted then success theme else accent theme;
     rowTitle := Task.title task;
     rowTitleColor := if isCompleted then success theme else text theme;
     requiredBadge := Task.required task;
     rowDescription := Task.description task;
     openButton := if Js.truthy (Task.url task) then Task.url task else None;
     completeButton :=
       if tracking st
       then Some (isCompleted, if isCompleted then "checkmark" else "add")
       else None |}.

(** The checklist card, absent for an airdrop without tasks. *)
Definition tasksCard (st : State) (a : Airdrop.t) : option (list TaskRow) :=
  if Nat.ltb 0 (length (Airdrop.tasks a)) then Some (taskRow st <$> Airdrop.tasks a) else None.

(** [onPress={() => !isCompleted && handleCompleteTask(task.id)}]: the
    guard is the [isCompleted] of the render the button belongs to,
    the state [rendered]; the handler then awaits the response, and
    what it writes lands in the state as it is by then, the one it
    runs in. *)
Definition pressComplete (rendered : State) (task : Task.t)
    (fetched : Js.Fetched Completion unit) : Js.M State unit :=
  if isCompleted rendered task then mret tt else handleCompleteTask (Task.id task) fetched.

(** *** What the screen shows *)

Inductive Screen : Type :=
| LoadingScreen
| NotFound
| Detail (a : Airdrop.t) (trackButton : bool).

Definition screen (st : State) : Screen :=
  if loading st then LoadingScreen
  else match airdrop st with
       | None => NotFound
       | Some a => Detail a (negb (tracking st))
       end.

(** [formatDate]; how the host prints [new Date(dateString)] for the
    locale [en-US] is the host's. *)
Definition formatDate (toLocaleDateString : string -> string) (dateString : option string)
  : string :=
  if negb (Js.truthy dateString) then "TBA"
  else toLocaleDateString (Js.text dateString).

(** The rows of the "Important Dates" card: label and value. *)
Definition datesList (toLocaleDateString : string -> string) (a : Airdrop.t)
  : list (string * string) :=
  Js.mounted
    [ (if Js.truthy (Airdrop.deadline a)
       then Some ("Deadline:", formatDate toLocaleDateString (Airdrop.deadline a)) else None);
      (if Js.truthy (Airdrop.snapshot_date a)
       then Some ("Snapshot:", formatDate toLocaleDateString (Airdrop.snapshot_date a)) else None);
      (if Js.truthy (Airdrop.listing_date a)
       then Some ("Listing:", formatDate toLocaleDateString (Airdrop.listing_date a)) else None) ].

(** *** The eligibility check *)

Module EligibilityResult.
Record details_t : Type := mkDetails {
  wallet_address : string;
  blockchain : string;
  criteria_met : list string;
  estimated_reward : option string
}.
Record t : Type := mk {
  is_eligible : bool;
  details : details_t
}.
End EligibilityResult.

(** The body of [POST /api/eligibility/check]. *)
Record EligibilityRequest : Type := mkEligibilityRequest {
  request_wallet_address : string;
  request_airdrop_id : string
}.

(** The state cells of the eligibility check. *)
Record Eligibility : Type := mkEligibility {
  walletAddress : string;
  eligibilityResult : option EligibilityResult.t;
  checkingEligibility : bool;
  showEligibilityModal : bool
}.

Definition setEligibilityResult (r : EligibilityResult.t) (st : Eligibility) : Eligibility :=
  mkEligibility (walletAddress st) (Some r) (checkingEligibility st) (showEligibilityModal st).
Definition setCheckingEligibility (b : bool) (st : Eligibility) : Eligibility :=
  mkEligibility (walletAddress st) (eligibilityResult st) b (showEligibilityModal st).
Definition setShowEligibilityModal (b : bool) (st : Eligibility) : Eligibility :=
  mkEligibility (walletAddress st) (eligibilityResult st) (checkingEligibility st) b.

(** [checkEligibility]; [trim] is [String.prototype.trim], and [post]
    is how the endpoint answers a request body. *)
Definition checkEligibility (trim : string -> string) (id : string)
  (post : EligibilityRequest -> Js.Fetched EligibilityResult.t unit) : Js.M Eligibility unit :=
  st ← Js.getState;
  if String.eqb (trim (walletAddress st)) "" then
    Js.Alert_alert "Error" "Please enter a wallet address"
  else
    Js.setState (setCheckingEligibility true);;
    Js.try_finally
      (Js.try_catch
         (response ← Js.await
            (post {| request_wallet_address := trim (walletAddress st);
                     request_airdrop_id := id |});
          match response with
          | Js.Ok2xx json =>
              result ← Js.await json;
              Js.setState (setEligibilityResult result);;
              Js.setState (setShowEligibilityModal false);;
              Js.Alert_alert
                (if EligibilityResult.is_eligible result then "Eligible! 🎉" else "Not Eligible 😔")
                (if EligibilityResult.is_eligible result
                 then "You may be eligible for "
                        +:+ Js.or_else (EligibilityResult.estimated_reward
                                          (EligibilityResult.details result)) "tokens"
                        +:+ "!"
                 else "Your wallet doesn't meet the requirements for this airdrop.")
          | Js.NotOk _ => Js.Alert_alert "Error" "Failed to check eligibility"
          end)
         (fun error =>
            Js.console_error "Error checking eligibility:" error;;
            Js.Alert_alert "Error" "Network error occurred"))
      (Js.setState (setCheckingEligibility false)).

End AirdropDetail.

(** ** Vocabulary of the properties *)

(** The statuses whose airdrop definition is in the detail mapping. *)
Definition known (details : gmap string MyAirdrops.Airdrop.t)
  (s : MyAirdrops.UserAirdropStatus.t) : bool :=
  bool_decide (is_Some (details !! MyAirdrops.UserAirdropStatus.airdrop_id s)).

(** A card joins the tracking record [s] with the definition the mapping
    holds under its [airdrop_id]. *)
Definition joins (toUpperCase : string -> string) (details : gmap string MyAirdrops.Airdrop.t)
  (s : MyAirdrops.UserAirdropStatus.t) (card : MyAirdrops.Card) : Prop :=
  ∃ airdrop, details !! MyAirdrops.UserAirdropStatus.airdrop_id s = Some airdrop
             ∧ card = MyAirdrops.viewModel toUpperCase s airdrop.

(** The statuses under whose [airdrop_id] the details object finds
    something truthy that is no definition. *)
Definition foreign (details : gmap string MyAirdrops.Airdrop.t)
  (s : MyAirdrops.UserAirdropStatus.t) : bool :=
  match Js.get MyAirdrops.Airdrop.property details (MyAirdrops.UserAirdropStatus.airdrop_id s) with
  | Js.Inherited true => true
  | _ => false
  end.

(** The statuses whose [airdrop_id] the mapping resolves as a mapping
    would: the definition is there, or the id names no member of
    [Object.prototype] and nothing is stored under [__proto__]. *)
Definition ordinary (details : gmap string MyAirdrops.Airdrop.t)
  (s : MyAirdrops.UserAirdropStatus.t) : Prop :=
  is_Some (details !! MyAirdrops.UserAirdropStatus.airdrop_id s)
  ∨ ((MyAirdrops.UserAirdropStatus.airdrop_id s ∉ Js.Object_prototype)
     ∧ details !! "__proto__" = None).

(** The count the section title shows when the [not_started] chip is
    selected (the header itself shows no such number). *)
Definition notStarted (st : MyAirdrops.State) : nat :=
  MyAirdrops.sectionCount (MyAirdrops.setSelectedFilter "not_started" st).

(** The tracking statuses the screen knows by name. *)
Definition recognized (status : string) : Prop :=
  status = "completed" ∨ status = "in_progress" ∨ status = "not_started".

(** The lifecycle statuses the catalog and detail screens know by name. *)
Definition lifecycle (status : string) : Prop :=
  status = "active" ∨ status = "upcoming" ∨ status = "expired".

(** A detail task that ends with an entry for the mapping: its fetch
    resolved with a 2xx response whose body parsed. *)
Definition succeeded (task : MyAirdrops.DetailTask) : option (string * MyAirdrops.Airdrop.t) :=
  match task with
  | (userAirdrop, Js.Normal (Js.Ok2xx (Js.Normal airdropData))) =>
      Some (MyAirdrops.UserAirdropStatus.airdrop_id userAirdrop, airdropData)
  | _ => None
  end.

(** What one task leaves in the [details] object. *)
Definition store (details : gmap string MyAirdrops.Airdrop.t) (task : MyAirdrops.DetailTask)
  : gmap string MyAirdrops.Airdrop.t :=
  match succeeded task with
  | Some (k, a) => <[k := a]> details
  | None => details
  end.

(** The detail tasks of a load: one per entry of the fetched list. *)
Definition detailTasks (net : MyAirdrops.Network) (data : list MyAirdrops.UserAirdropStatus.t)
  : list MyAirdrops.DetailTask :=
  imap (fun i userAirdrop => (userAirdrop, MyAirdrops.airdropResponse net i userAirdrop)) data.

(** The local calendar date of an instant: year, month (from 0) and
    day of the month of its local time. *)
Definition calendarDate (h : Date.Host) (t : Z) : Z * Z * Z :=
  let local := Date.LocalTime h t in
  (Date.YearFromTime local, Date.MonthFromTime local, Date.DateFromTime local).

(** Whether a string holds a space (the separator of a date string). *)
Fixpoint has_space (s : string) : bool :=
  match s with
  | EmptyString => false
  | String c s' => if Ascii.eqb c " " then true else has_space s'
  end.

(** The result of a check-in attempt that succeeded. *)
Definition checkedInResult (fetched : Js.Fetched Checkin.Result Checkin.Failure)
  : option Checkin.Result :=
  match fetched with
  | Js.Normal (Js.Ok2xx (Js.Normal result)) => Some result
  | _ => None
  end.

(** The error a check-in attempt throws inside the handler: the
    rejection of the request, or of the reading of a body. *)
Definition checkinError (fetched : Js.Fetched Checkin.Result Checkin.Failure)
  : option Js.JsError :=
  match fetched with
  | Js.Throw e | Js.Normal (Js.Ok2xx (Js.Throw e)) | Js.Normal (Js.NotOk (Js.Throw e)) => Some e
  | _ => None
  end.

(** The alert a check-in attempt ends with, on a screen whose title
    for a success is [successful]. *)
Definition checkinAlert (successful : string)
  (fetched : Js.Fetched Checkin.Result Checkin.Failure) : string * string :=
  match fetched with
  | Js.Normal (Js.Ok2xx (Js.Normal result)) =>
      (successful, Checkin.successMessage result)
  | Js.Normal (Js.NotOk (Js.Normal failure)) =>
      ("Check-in Failed",
       match Checkin.message failure with
       | Some m => if String.eqb m "" then "Something went wrong" else m
       | None => "Something went wrong"
       end)
  | _ => ("Error", "Failed to complete check-in")
  end.

(** ** Concrete scenarios *)

Module Example.

Definition u1 : MyAirdrops.UserAirdropStatus.t :=
  MyAirdrops.UserAirdropStatus.mk "u1" "user_123" "a1" "in_progress" ["t1"] 60
    None false None false None "2024-01-01T00:00:00Z" "2024-01-01T00:00:00Z".

Definition u2 : MyAirdrops.UserAirdropStatus.t :=
  MyAirdrops.UserAirdropStatus.mk "u2" "user_123" "a2" "not_started" [] 0
    None false None false None "2024-01-01T00:00:00Z" "2024-01-01T00:00:00Z".

Definition a1 : MyAirdrops.Airdrop.t :=
  MyAirdrops.Airdrop.mk "a1" "Alpha" "" "ethereum" "active" (Some "100") (Some "USDC")
    None 80 ["t1"; "t2"].

Definition a2 : MyAirdrops.Airdrop.t :=
  MyAirdrops.Airdrop.mk "a2" "Beta" "" "solana" "upcoming" None None None 50 [].

(** Two concurrent detail fetches: the one for [a1] is rejected, the
    one for [a2] succeeds; the later task completes first. *)
Definition partialFailure : MyAirdrops.Network :=
  {| MyAirdrops.userAirdropsResponse := Js.Normal (Js.Ok2xx (Js.Normal [u1; u2]));
     MyAirdrops.airdropResponse := fun _ userAirdrop =>
       if String.eqb (MyAirdrops.UserAirdropStatus.airdrop_id userAirdrop) "a1"
       then Js.Throw "TypeError: Network request failed"
       else Js.Normal (Js.Ok2xx (Js.Normal a2));
     MyAirdrops.completionOrder := reverse |}.

(** A tracked airdrop whose id is the name of a member of
    [Object.prototype]. *)
Definition u4 : MyAirdrops.UserAirdropStatus.t :=
  MyAirdrops.UserAirdropStatus.mk "u4" "user_123" "toString" "not_started" [] 0
    None false None false None "2024-01-01T00:00:00Z" "2024-01-01T00:00:00Z".

(** A status string the screen has no name for. *)
Definition paused : MyAirdrops.UserAirdropStatus.t :=
  MyAirdrops.UserAirdropStatus.mk "u3" "user_123" "a3" "paused" [] 0
    None false None false None "" "".

(** The catalog screen's user before a check-in, and a check-in result. *)
Definition visitor : Index.User.t := Index.User.mk "user_123" 10 1 None.

Definition checkin : Checkin.Result := Checkin.mkResult 10 2 20.

(** The profile screen with a user whose last check-in is the given
    string. *)
Definition checkedInAt (last_checkin : string) : Profile.State :=
  {| Profile.user :=
       Some (Profile.User.mk "user_123" [] 1 10 (Some last_checkin) None "2023-06-01T00:00:00Z");
     Profile.loading := false;
     Profile.isDarkMode := true;
     Profile.notificationsEnabled := true |}.

End Example.

(** * Properties *)

(** ** Filtering, joining and counting on the tracked-airdrop screen *)

Section MyAirdropsFacts.
Import MyAirdrops.

Lemma filteredAirdrops_all st :
  selectedFilter st = "all" -> filteredAirdrops st = userAirdrops st.
Proof.
  intros Hall. unfold filteredAirdrops. rewrite Hall. simpl.
  induction (userAirdrops st) as [|x l IH]; simpl; [done | by rewrite IH].
Qed.

Lemma filteredAirdrops_other st :
  selectedFilter st ≠ "all" ->
  filteredAirdrops st =
    List.filter (fun ua => String.eqb (UserAirdropStatus.status ua) (selectedFilter st))
      (userAirdrops st).
Proof.
  intros Hne. unfold filteredAirdrops.
  destruct (String.eqb_spec (selectedFilter st) "all") as [Heq|_]; [by destruct Hne | done].
Qed.

Lemma list_filter_sublist {A} (f : A -> bool) (l : list A) : sublist (List.filter f l) l.
Proof.
  induction l as [|x l IH]; simpl; [constructor|].
  destruct (f x); by constructor.
Qed.

Lemma list_filter_elem_of {A} (f : A -> bool) (l : list A) (x : A) :
  x ∈ List.filter f l <-> x ∈ l ∧ f x = true.
Proof. rewrite !list_elem_of_In. apply filter_In. Qed.

(** What [airdropDetails[id]] finds, by cases. *)
Lemma get_stored (details : gmap string Airdrop.t) (k : string) (a : Airdrop.t) :
  details !! k = Some a -> Js.get Airdrop.property details k = Js.Stored a.
Proof. intros Hk. unfold Js.get. by rewrite Hk. Qed.

Lemma get_undefined (details : gmap string Airdrop.t) (k : string) :
  details !! k = None -> details !! "__proto__" = None -> k ∉ Js.Object_prototype ->
  Js.get Airdrop.property details k = Js.Undefined.
Proof.
  intros Hk Hproto Hmember. unfold Js.get. rewrite Hk, Hproto. simpl.
  by rewrite bool_decide_false.
Qed.

Lemma foreign_member (details : gmap string Airdrop.t) (s : UserAirdropStatus.t) :
  details !! "__proto__" = None ->
  foreign details s = true
  <-> details !! UserAirdropStatus.airdrop_id s = None
      ∧ UserAirdropStatus.airdrop_id s ∈ Js.Object_prototype.
Proof.
  intros Hproto. unfold foreign, Js.get. rewrite Hproto. simpl.
  destruct (details !! UserAirdropStatus.airdrop_id s) as [a|]; [by split; [|intros [? _]]|].
  destruct (decide (UserAirdropStatus.airdrop_id s ∈ Js.Object_prototype)) as [Hin|Hout].
  - rewrite bool_decide_true by done. done.
  - rewrite bool_decide_false by done. by split; [|intros [_ ?]].
Qed.

Lemma ordinary_not_foreign (details : gmap string Airdrop.t) (s : UserAirdropStatus.t) :
  ordinary details s -> foreign details s = false.
Proof.
  unfold foreign. intros [[a Ha]|[Hmember Hproto]].
  - by rewrite (get_stored _ _ _ Ha).
  - destruct (details !! UserAirdropStatus.airdrop_id s) as [a|] eqn:Hs.
    + by rewrite (get_stored _ _ _ Hs).
    + by rewrite get_undefined.
Qed.

(** How one card renders: the view-model when the definition is
    stored, a throw when the id finds something else, and [null]
    otherwise. *)
Lemma renderAirdropCard_cases (toUpperCase : string -> string) (st : State)
  (s : UserAirdropStatus.t) :
  match airdropDetails st !! UserAirdropStatus.airdrop_id s with
  | Some a =>
      renderAirdropCard toUpperCase st s = Js.Normal (Some (viewModel toUpperCase s a))
      ∧ foreign (airdropDetails st) s = false
  | None =>
      renderAirdropCard toUpperCase st s
      = if foreign (airdropDetails st) s then Js.Throw Js.TypeError else Js.Normal None
  end.
Proof.
  unfold renderAirdropCard, foreign, Js.get.
  destruct (airdropDetails st !! UserAirdropStatus.airdrop_id s) as [a|]; [done|].
  destruct (airdropDetails st !! "__proto__" ≫= _) as [[|]|]; try done.
  by destruct (bool_decide _).
Qed.

(** The cards of a list of statuses: a throw as soon as one is
    foreign; otherwise, in order, the join of each status whose
    definition is stored. *)
Lemma mounted_cards (toUpperCase : string -> string) (st : State)
  (l : list UserAirdropStatus.t) :
  if existsb (foreign (airdropDetails st)) l
  then Js.Array_map (renderAirdropCard toUpperCase st) l = Js.Throw Js.TypeError
  else ∃ children,
         Js.Array_map (renderAirdropCard toUpperCase st) l = Js.Normal children
         ∧ Forall2 (joins toUpperCase (airdropDetails st))
             (List.filter (known (airdropDetails st)) l) (Js.mounted children).
Proof.
  induction l as [|s l IH]; [exists []; split; [done | constructor]|].
  cbn [existsb Js.Array_map List.filter].
  pose proof (renderAirdropCard_cases toUpperCase st s) as Hs. unfold known at 1.
  destruct (airdropDetails st !! UserAirdropStatus.airdrop_id s) as [a|] eqn:Hlook.
  - destruct Hs as [-> ->]. rewrite bool_decide_true by eauto. simpl.
    destruct (existsb (foreign (airdropDetails st)) l).
    + by rewrite IH.
    + destruct IH as (children & -> & IH). eexists. split; [done|].
      simpl. constructor; [by exists a | exact IH].
  - rewrite Hs. rewrite bool_decide_false by (intros [? ?]; done).
    destruct (foreign (airdropDetails st) s); [done|]. simpl.
    destruct (existsb (foreign (airdropDetails st)) l).
    + by rewrite IH.
    + destruct IH as (children & -> & IH). eexists. split; [done|]. exact IH.
Qed.

(** The card list of a state: the same, over the filtered statuses. *)
Lemma airdropsList_filtered (toUpperCase : string -> string) (st : State) :
  if existsb (foreign (airdropDetails st)) (filteredAirdrops st)
  then airdropsList toUpperCase st = Js.Throw Js.TypeError
  else ∃ cards,
         airdropsList toUpperCase st = Js.Normal cards
         ∧ Forall2 (joins toUpperCase (airdropDetails st))
             (List.filter (known (airdropDetails st)) (filteredAirdrops st)) cards.
Proof.
  unfold airdropsList.
  pose proof (mounted_cards toUpperCase st (filteredAirdrops st)) as H.
  destruct (existsb (foreign (airdropDetails st)) (filteredAirdrops st)).
  - by rewrite H.
  - destruct H as (children & -> & H). by eexists.
Qed.

Lemma partition_counts (l : list UserAirdropStatus.t) :
  let count v := length (List.filter (fun ua => String.eqb (UserAirdropStatus.status ua) v) l) in
  (count "completed" + count "in_progress" + count "not_started" <= length l)%nat
  ∧ ((count "completed" + count "in_progress" + count "not_started" = length l)%nat
     <-> Forall (fun ua => recognized (UserAirdropStatus.status ua)) l).
Proof.
  induction l as [|x l [IHle IHeq]]; simpl.
  - split; [lia|]. split; [constructor | done].
  - unfold recognized in *.
    destruct (String.eqb_spec (UserAirdropStatus.status x) "completed") as [Hc|Hc];
    destruct (String.eqb_spec (UserAirdropStatus.status x) "in_progress") as [Hi|Hi];
    destruct (String.eqb_spec (UserAirdropStatus.status x) "not_started") as [Hn|Hn];
    try congruence; simpl; (split; [lia|]); rewrite Forall_cons.
    + split; [intros; split; [by left| apply IHeq; lia] | intros [_ H%IHeq]; lia].
    + split; [intros; split; [by right; left| apply IHeq; lia] | intros [_ H%IHeq]; lia].
    + split; [intros; split; [by right; right| apply IHeq; lia] | intros [_ H%IHeq]; lia].
    + split; [intros; lia | intros [[?|[?|?]] _]; done].
Qed.

(** C1, the code against the claim: the claim promises, for every
    sequence of tracking statuses and every mapping from airdrop id to
    definition, one card per status whose [airdrop_id] is a key of the
    mapping and nothing, without an error, for the others.  The card
    reads the mapping as a plain object, and a plain object finds the
    members of [Object.prototype] under their names: for the one status
    [u4], whose [airdrop_id] is [toString], and the empty mapping, no
    status has its definition, and the card, the card list and the
    screen throw a [TypeError] instead of showing no card; next to a
    status whose definition is there, the throw takes that card along.
    It is so for every list that holds a status named after a member
    of [Object.prototype] while the mapping is empty. *)
Theorem join_throws_on_prototype_name (toUpperCase : string -> string) :
  let st := mkState [Example.u4] ∅ false false "all" in
  let st' := mkState [Example.u1; Example.u4] {[ "a1" := Example.a1 ]} false false "all" in
  UserAirdropStatus.airdrop_id Example.u4 = "toString"
  ∧ List.filter (known ∅) [Example.u4] = []
  ∧ renderAirdropCard toUpperCase st Example.u4 = Js.Throw Js.TypeError
  ∧ airdropsList toUpperCase st = Js.Throw Js.TypeError
  ∧ screen toUpperCase st = Js.Throw Js.TypeError
  ∧ List.filter (known {[ "a1" := Example.a1 ]}) [Example.u1; Example.u4] = [Example.u1]
  ∧ airdropsList toUpperCase st' = Js.Throw Js.TypeError
  ∧ screen toUpperCase st' = Js.Throw Js.TypeError
  ∧ (∀ statuses s,
       s ∈ statuses -> UserAirdropStatus.airdrop_id s ∈ Js.Object_prototype ->
       List.filter (known ∅) statuses = []
       ∧ airdropsList toUpperCase (mkState statuses ∅ false false "all") = Js.Throw Js.TypeError).
Proof.
  cbv zeta. split_and!; try (vm_compute; reflexivity).
  intros statuses s Hin Hname. split.
  - clear Hin. induction statuses as [|x l IH]; [done|]. simpl. unfold known at 1.
    rewrite lookup_empty. by rewrite bool_decide_false by (intros [? ?]; done).
  - pose proof (airdropsList_filtered toUpperCase (mkState statuses ∅ false false "all")) as HF.
    rewrite filteredAirdrops_all in HF by done. simpl in HF.
    assert (Hex : existsb (foreign ∅) statuses = true).
    { apply existsb_exists. exists s. split; [by apply list_elem_of_In|].
      apply foreign_member; [apply lookup_empty|]. split; [apply lookup_empty | exact Hname]. }
    by rewrite Hex in HF.
Qed.

(** X18: for every sequence of tracking statuses and every mapping from
    airdrop id to definition in which each status is ordinary (its
    definition is in the mapping, or its [airdrop_id] names no member
    of [Object.prototype] and nothing is stored under [__proto__]), the
    card list renders, and the mounted cards are, in order, one
    view-model for each status whose [airdrop_id] is a key of the
    mapping, joining the status with the mapping's entry, and nothing
    for the other statuses (their card is [null]); so the number of
    cards is the number of statuses whose [airdrop_id] is a key of the
    mapping. *)
Theorem join_one_card_per_known_status
  (toUpperCase : string -> string) (statuses : list UserAirdropStatus.t)
  (catalog : gmap string Airdrop.t) (loading refreshing : bool) :
  let st := mkState statuses catalog loading refreshing "all" in
  (∀ s, s ∈ statuses -> ordinary catalog s) ->
  ∃ cards,
    airdropsList toUpperCase st = Js.Normal cards
    ∧ Forall2 (joins toUpperCase catalog) (List.filter (known catalog) statuses) cards
    ∧ length cards = length (List.filter (known catalog) statuses)
    ∧ (∀ s, s ∈ statuses -> catalog !! UserAirdropStatus.airdrop_id s = None ->
            renderAirdropCard toUpperCase st s = Js.Normal None)
    ∧ (∀ s, s ∈ statuses -> is_Some (catalog !! UserAirdropStatus.airdrop_id s) ->
            ∃ card, renderAirdropCard toUpperCase st s = Js.Normal (Some card)
                    ∧ card ∈ cards ∧ joins toUpperCase catalog s card).
Proof.
  intros st Hordinary.
  assert (Hall : filteredAirdrops st = statuses) by (by apply filteredAirdrops_all).
  pose proof (airdropsList_filtered toUpperCase st) as HF. rewrite Hall in HF.
  assert (Hnone : existsb (foreign catalog) statuses = false).
  { apply not_true_is_false. intros (s & Hin & Hs)%existsb_exists.
    apply list_elem_of_In in Hin. rewrite (ordinary_not_foreign _ _ (Hordinary s Hin)) in Hs.
    discriminate Hs. }
  change (airdropDetails st) with catalog in HF. rewrite Hnone in HF.
  destruct HF as (cards & Hcards & HF). exists cards.
  split; [exact Hcards|]. split; [exact HF|]. split; [symmetry; eapply Forall2_length, HF|].
  split.
  - intros s Hin Hlook.
    pose proof (renderAirdropCard_cases toUpperCase st s) as Hs.
    change (airdropDetails st) with catalog in Hs. rewrite Hlook in Hs.
    by rewrite (ordinary_not_foreign _ _ (Hordinary s Hin)) in Hs.
  - intros s Hin [a Ha].
    pose proof (renderAirdropCard_cases toUpperCase st s) as Hs.
    change (airdropDetails st) with catalog in Hs. rewrite Ha in Hs. destruct Hs as [Hs _].
    exists (viewModel toUpperCase s a). split; [exact Hs|]. split; [|by exists a].
    assert (Hknown : s ∈ List.filter (known catalog) statuses).
    { apply list_filter_elem_of. split; [done|]. unfold known. apply bool_decide_eq_true. eauto. }
    apply list_elem_of_lookup in Hknown as [i Hi].
    destruct (Forall2_lookup_l _ _ _ _ _ HF Hi) as (card & Hcard & (a' & Ha' & ->)).
    rewrite Ha in Ha'. injection Ha' as <-.
    by eapply list_elem_of_lookup_2.
Qed.

Lemma join_one_card_per_known_status_witness :
  let st := mkState [Example.u1; Example.u2] {[ "a1" := Example.a1 ]} false false "all" in
  ∃ cards, airdropsList Js.asciiUpperCase st = Js.Normal cards ∧ length cards = 1%nat.
Proof.
  intros st.
  destruct (join_one_card_per_known_status Js.asciiUpperCase [Example.u1; Example.u2]
              {[ "a1" := Example.a1 ]} false false) as (cards & Hcards & _ & Hlen & _).
  - intros s Hs. unfold ordinary.
    destruct (decide (is_Some (({[ "a1" := Example.a1 ]} : gmap string Airdrop.t)
                                 !! UserAirdropStatus.airdrop_id s))) as [Hknown|Hunknown];
      [by left|right].
    apply list_elem_of_In in Hs. simpl in Hs.
    destruct Hs as [<-|[<-|[]]]; [destruct Hunknown; vm_compute; eauto|].
    split; [|reflexivity].
    apply (bool_decide_unpack _). vm_compute. exact I.
  - exists cards. split; [exact Hcards | exact Hlen].
Defined.

(** *** Progress colour *)

Lemma theme_tiers_distinct :
  success theme ≠ warning theme ∧ success theme ≠ accent theme ∧ warning theme ≠ accent theme.
Proof. repeat split; discriminate. Qed.

(** Over all integers: complete exactly at 100, default exactly below
    50, and warn on everything else from 50 up, above 100 included. *)
Remark getProgressBarColor_cases (percentage : Z) :
  (getProgressBarColor percentage = success theme <-> percentage = 100%Z)
  ∧ (getProgressBarColor percentage = warning theme <-> (50 <= percentage)%Z ∧ percentage ≠ 100%Z)
  ∧ (getProgressBarColor percentage = accent theme <-> (percentage < 50)%Z).
Proof.
  unfold getProgressBarColor.
  destruct (Z.eqb_spec percentage 100) as [->|Hne]; simpl;
    [|destruct (Z.geb_spec percentage 50) as [Hge|Hlt]];
    split_and!; split; intros H; first [done | lia | discriminate H | by destruct H].
Qed.

(** C2: [getProgressBarColor] is a function of the integer percentage
    alone; on a percentage (an integer from 0 to 100) it returns the
    complete tier iff the percentage is 100, the warn tier iff it is at
    least 50 and below 100, and the default tier iff it is below 50; in
    particular 49 is default, 50 and 99 are warn and 100 is complete. *)
Theorem getProgressBarColor_tiers (percentage : Z) :
  (0 <= percentage <= 100)%Z ->
  (getProgressBarColor percentage = success theme <-> percentage = 100%Z)
  ∧ (getProgressBarColor percentage = warning theme <-> (50 <= percentage < 100)%Z)
  ∧ (getProgressBarColor percentage = accent theme <-> (percentage < 50)%Z)
  ∧ getProgressBarColor 49 = accent theme
  ∧ getProgressBarColor 50 = warning theme
  ∧ getProgressBarColor 99 = warning theme
  ∧ getProgressBarColor 100 = success theme.
Proof.
  intros Hrange.
  destruct (getProgressBarColor_cases percentage) as (Hc & Hw & Hd).
  split; [exact Hc|]. split; [rewrite Hw; lia|]. split; [exact Hd|].
  repeat split.
Qed.

Lemma getProgressBarColor_tiers_witness :
  (0 <= 60 <= 100)%Z
  ∧ (getProgressBarColor 60 = warning theme <-> (50 <= 60 < 100)%Z)
  ∧ getProgressBarColor 60 = warning theme.
Proof.
  split; [lia|].
  split; [exact (proj1 (proj2 (getProgressBarColor_tiers 60 ltac:(lia)))) | reflexivity].
Defined.

(** *** Header statistics *)

(** C4 as stated fails: a status string outside the three names is
    counted in the total and in none of the three groups. *)
Lemma summary_partition_counterexample :
  let st := mkState [Example.paused] ∅ false false "all" in
  tracking (renderHeader st) = 1%nat
  ∧ (completed (renderHeader st) + inProgress (renderHeader st) + notStarted st)%nat = 0%nat.
Proof. split; reflexivity. Qed.

(** C4, amended: the total is the length of the list; completed plus
    in-progress never exceeds it; with the not-started count added the
    sum still never exceeds it, and it equals the total exactly when
    every status is one of [completed], [in_progress], [not_started]. *)
Theorem summary_counts (st : State) :
  tracking (renderHeader st) = length (userAirdrops st)
  ∧ (completed (renderHeader st) + inProgress (renderHeader st) <= length (userAirdrops st))%nat
  ∧ (completed (renderHeader st) + inProgress (renderHeader st) + notStarted st
       <= tracking (renderHeader st))%nat
  ∧ ((completed (renderHeader st) + inProgress (renderHeader st) + notStarted st)%nat
       = tracking (renderHeader st)
     <-> Forall (fun ua => recognized (UserAirdropStatus.status ua)) (userAirdrops st)).
Proof.
  assert (Hns : notStarted st =
    length (List.filter (fun ua => String.eqb (UserAirdropStatus.status ua) "not_started")
              (userAirdrops st))).
  { unfold notStarted, sectionCount. rewrite filteredAirdrops_other by (simpl; discriminate). done. }
  rewrite Hns. simpl.
  destruct (partition_counts (userAirdrops st)) as [Hle Heq]. simpl in Hle, Heq.
  split; [done|]. split; [lia|]. split; [exact Hle | exact Heq].
Qed.

(** C10: the three numbers of the header are computed from the whole
    status list: whatever filter is selected they are the same, while
    the card list follows the filter. *)
Theorem header_independent_of_filter (toUpperCase : string -> string) (st : State) (f1 f2 : string) :
  renderHeader (setSelectedFilter f1 st) = renderHeader (setSelectedFilter f2 st)
  ∧ renderHeader (setSelectedFilter f1 st)
    = {| tracking := length (userAirdrops st);
         completed :=
           length (List.filter
                     (fun ua => String.eqb (UserAirdropStatus.status ua) "completed")
                     (userAirdrops st));
         inProgress :=
           length (List.filter
                     (fun ua => String.eqb (UserAirdropStatus.status ua) "in_progress")
                     (userAirdrops st)) |}
  ∧ (let loaded := mkState [Example.u1; Example.u2] {[ "a1" := Example.a1 ]} false false "all" in
     renderHeader (setSelectedFilter "in_progress" loaded) = renderHeader loaded
     ∧ renderHeader loaded = mkHeader 2 0 1
     ∧ airdropsList toUpperCase loaded = Js.Normal [viewModel toUpperCase Example.u1 Example.a1]
     ∧ sectionCount loaded = 2%nat
     ∧ sectionCount (setSelectedFilter "in_progress" loaded) = 1%nat
     ∧ sectionCount (setSelectedFilter "completed" loaded) = 0%nat).
Proof.
  split_and!; [reflexivity | reflexivity |].
  cbv zeta. split_and!; vm_compute; reflexivity.
Qed.

(** The end-to-end scenario of the specification: one tracked airdrop
    in progress at 60 percent whose definition offers 100 USDC gives one
    card, with progress 60, the warn tier and the reward text
    [100 USDC]. *)
Example join_end_to_end :
  let st := mkState [Example.u1] {[ "a1" := Example.a1 ]} false false "all" in
  ∃ card, airdropsList Js.asciiUpperCase st = Js.Normal [card]
          ∧ progressPercent card = 60%Z
          ∧ progressBarColor card = warning theme
          ∧ rewardText card = Some "100 USDC"
          ∧ tasksCompleted card = 1%nat ∧ tasksTotal card = 2%nat
          ∧ statusText card = "IN PROGRESS" ∧ cardBlockchain card = "ETHEREUM".
Proof. eexists. vm_compute. split_and!; reflexivity. Qed.

End MyAirdropsFacts.

(** ** The status filter, on both screens *)

Section FilterFacts.

Context {A : Type} (status : A -> string).

(** The predicate both screens pass to [Array.prototype.filter]. *)
Let keep (selectedFilter : string) (x : A) : bool :=
  if String.eqb selectedFilter "all" then true else String.eqb (status x) selectedFilter.

Lemma filter_by_status (selectedFilter : string) (l : list A) :
  (selectedFilter = "all" -> List.filter (keep selectedFilter) l = l)
  ∧ (selectedFilter ≠ "all" ->
       Forall (fun x => status x = selectedFilter) (List.filter (keep selectedFilter) l)
       ∧ ∀ x, x ∈ List.filter (keep selectedFilter) l <-> x ∈ l ∧ status x = selectedFilter)
  ∧ sublist (List.filter (keep selectedFilter) l) l.
Proof.
  split; [|split].
  - intros ->. unfold keep. simpl.
    induction l as [|x l IH]; simpl; [done | by rewrite IH].
  - intros Hne.
    assert (Hkeep : ∀ x, keep selectedFilter x = true <-> status x = selectedFilter).
    { intros x. unfold keep.
      destruct (String.eqb_spec selectedFilter "all") as [?|_]; [done|].
      apply String.eqb_eq. }
    split.
    + apply Forall_forall. intros x Hx. apply Hkeep.
      by apply list_filter_elem_of in Hx as [_ ?].
    + intros x. rewrite list_filter_elem_of. by rewrite Hkeep.
  - apply list_filter_sublist.
Qed.

End FilterFacts.

(** C5: with the filter [all] the filtered list is the input list; with
    any other filter value every element of the result has that status
    (and every input element with that status is in the result); the
    result is always a sublist of the input, so the input's relative
    order is kept.  This holds on the tracked-airdrop screen (tracking
    status) and on the catalog screen (lifecycle status). *)
Theorem filter_identity_status_stable (my : MyAirdrops.State) (ix : Index.State) :
  ((MyAirdrops.selectedFilter my = "all" ->
      MyAirdrops.filteredAirdrops my = MyAirdrops.userAirdrops my)
   ∧ (MyAirdrops.selectedFilter my ≠ "all" ->
        Forall (fun ua => MyAirdrops.UserAirdropStatus.status ua = MyAirdrops.selectedFilter my)
          (MyAirdrops.filteredAirdrops my)
        ∧ ∀ ua, ua ∈ MyAirdrops.filteredAirdrops my <->
                ua ∈ MyAirdrops.userAirdrops my
                ∧ MyAirdrops.UserAirdropStatus.status ua = MyAirdrops.selectedFilter my)
   ∧ sublist (MyAirdrops.filteredAirdrops my) (MyAirdrops.userAirdrops my))
  ∧ ((Index.selectedFilter ix = "all" -> Index.filteredAirdrops ix = Index.airdrops ix)
     ∧ (Index.selectedFilter ix ≠ "all" ->
          Forall (fun a => Index.Airdrop.status a = Index.selectedFilter ix)
            (Index.filteredAirdrops ix)
          ∧ ∀ a, a ∈ Index.filteredAirdrops ix <->
                 a ∈ Index.airdrops ix ∧ Index.Airdrop.status a = Index.selectedFilter ix)
     ∧ sublist (Index.filteredAirdrops ix) (Index.airdrops ix)).
Proof.
  split.
  - exact (filter_by_status MyAirdrops.UserAirdropStatus.status
             (MyAirdrops.selectedFilter my) (MyAirdrops.userAirdrops my)).
  - exact (filter_by_status Index.Airdrop.status
             (Index.selectedFilter ix) (Index.airdrops ix)).
Qed.

(** ** Status colours and icons *)

(** C7: the status-to-colour and status-to-icon mappings answer every
    string with one of the theme's tiers (one of the icons), and answer
    a string that is none of the names they know with the secondary
    tier and the outline icon. *)
Theorem status_display_total_with_fallback (status : string) (ix : Index.State) :
  (MyAirdrops.getStatusColor status
     ∈ [success MyAirdrops.theme; warning MyAirdrops.theme; textSecondary MyAirdrops.theme]
   ∧ MyAirdrops.getStatusIcon status ∈ ["checkmark-circle"; "time"; "ellipse-outline"]
   ∧ (¬ recognized status ->
        MyAirdrops.getStatusColor status = textSecondary MyAirdrops.theme
        ∧ MyAirdrops.getStatusIcon status = "ellipse-outline"))
  ∧ (Index.getStatusColor ix status
       ∈ [success (Index.theme ix); warning (Index.theme ix); error (Index.theme ix);
          textSecondary (Index.theme ix)]
     ∧ (¬ lifecycle status -> Index.getStatusColor ix status = textSecondary (Index.theme ix)))
  ∧ (AirdropDetail.getStatusColor status
       ∈ [success AirdropDetail.theme; warning AirdropDetail.theme; error AirdropDetail.theme;
          textSecondary AirdropDetail.theme]
     ∧ (¬ lifecycle status ->
          AirdropDetail.getStatusColor status = textSecondary AirdropDetail.theme)).
Proof.
  unfold recognized, lifecycle, MyAirdrops.getStatusColor, MyAirdrops.getStatusIcon,
    Index.getStatusColor, AirdropDetail.getStatusColor.
  split_and!.
  - repeat case_match; set_solver.
  - repeat case_match; set_solver.
  - intros Hn.
    destruct (String.eqb_spec status "completed"); [tauto|].
    destruct (String.eqb_spec status "in_progress"); [tauto|].
    by destruct (String.eqb_spec status "not_started").
  - repeat case_match; set_solver.
  - intros Hn.
    destruct (String.eqb_spec status "active"); [tauto|].
    destruct (String.eqb_spec status "upcoming"); [tauto|].
    destruct (String.eqb_spec status "expired"); [tauto|done].
  - repeat case_match; set_solver.
  - intros Hn.
    destruct (String.eqb_spec status "active"); [tauto|].
    destruct (String.eqb_spec status "upcoming"); [tauto|].
    destruct (String.eqb_spec status "expired"); [tauto|done].
Qed.

(** ** The handlers *)

Section HandlerFacts.
Import Js.

(** Running a handler: its completion and the world it leaves. *)
Lemma fetchDetail_run (task : MyAirdrops.DetailTask) (env : Env (gmap string MyAirdrops.Airdrop.t)) :
  ∃ log, MyAirdrops.fetchDetail task env
         = (Normal tt, mkEnv (store (ui env) task) (console env ++ log) (alerts env)).
Proof.
  destruct env as [d c a]. destruct task as [ua [[[data|e]|[x|e]]|e]];
    unfold MyAirdrops.fetchDetail, store, succeeded, try_catch, mbind, M_bind, bind, await,
      setState, console_error, mret, M_ret, ret; simpl;
    first [ by exists []; rewrite app_nil_r | by eexists ].
Qed.

Lemma detail_batch_run (tasks : list MyAirdrops.DetailTask)
  (env : Env (gmap string MyAirdrops.Airdrop.t)) :
  ∃ log, Promise_all (MyAirdrops.fetchDetail <$> tasks) env
         = (Normal tt, mkEnv (foldl store (ui env) tasks) (console env ++ log) (alerts env)).
Proof.
  revert env. induction tasks as [|task tasks IH]; intros env.
  - exists []. rewrite app_nil_r. by destruct env.
  - rewrite fmap_cons. cbn [Promise_all foldl]. unfold bind.
    destruct (fetchDetail_run task env) as [log1 ->].
    destruct (IH (mkEnv (store (ui env) task) (console env ++ log1) (alerts env))) as [log2 ->].
    simpl. exists (log1 ++ log2). by rewrite app_assoc.
Qed.

(** The whole load, in each of the four ways the list request can end. *)
Lemma loadUserAirdrops_run (net : MyAirdrops.Network) (env : Env MyAirdrops.State) :
  ∃ log,
    MyAirdrops.loadUserAirdrops net env
    = (Normal tt,
       mkEnv
         (MyAirdrops.setLoading false
            match MyAirdrops.userAirdropsResponse net with
            | Normal (Ok2xx (Normal data)) =>
                MyAirdrops.setAirdropDetails
                  (foldl store ∅ (MyAirdrops.completionOrder net (detailTasks net data)))
                  (MyAirdrops.setUserAirdrops data (ui env))
            | _ => ui env
            end)
         (console env ++ log) (alerts env)).
Proof.
  destruct env as [st c a].
  unfold MyAirdrops.loadUserAirdrops, try_finally, try_catch, mbind, M_bind, bind, await.
  destruct (MyAirdrops.userAirdropsResponse net) as [[[data|e]|[x|e]]|e]; simpl;
    try (by eexists).
  unfold with_local. simpl.
  destruct (detail_batch_run (MyAirdrops.completionOrder net (detailTasks net data))
              (mkEnv ∅ c a)) as [log Hrun].
  unfold detailTasks in Hrun |- *. rewrite Hrun. simpl. by eexists.
Qed.

(** *** What the load leaves in the detail mapping *)

Lemma foldl_store_lookup_Some (tasks : list MyAirdrops.DetailTask)
  (d : gmap string MyAirdrops.Airdrop.t) k a :
  foldl store d tasks !! k = Some a ->
  d !! k = Some a ∨ ∃ task, task ∈ tasks ∧ succeeded task = Some (k, a).
Proof.
  revert d. induction tasks as [|task tasks IH]; intros d; simpl; [by left|].
  intros [Hd|(task' & Hin & Hs)]%IH.
  - unfold store in Hd. destruct (succeeded task) as [[k' a']|] eqn:Hs; [|by left].
    destruct (decide (k' = k)) as [->|Hne].
    + rewrite lookup_insert_eq in Hd. injection Hd as ->.
      right. exists task. split; [left|done].
    + rewrite lookup_insert_ne in Hd by done. by left.
  - right. exists task'. split; [by right|done].
Qed.

Lemma foldl_store_lookup_is_Some (tasks : list MyAirdrops.DetailTask)
  (d : gmap string MyAirdrops.Airdrop.t) k :
  is_Some (d !! k) ∨ (∃ task a, task ∈ tasks ∧ succeeded task = Some (k, a)) ->
  is_Some (foldl store d tasks !! k).
Proof.
  revert d. induction tasks as [|task tasks IH]; intros d; simpl.
  - intros [?|(task & a & Hin & _)]; [done|]. by apply elem_of_nil in Hin.
  - intros H. apply IH.
    destruct H as [Hd|(task' & a & Hin & Hs)].
    + left. unfold store. destruct (succeeded task) as [[k' a']|]; [|done].
      destruct (decide (k' = k)) as [->|Hne];
        [rewrite lookup_insert_eq; eauto | by rewrite lookup_insert_ne].
    + apply elem_of_cons in Hin as [->|Hin].
      * left. unfold store. rewrite Hs. rewrite lookup_insert_eq. eauto.
      * right. eauto.
Qed.

Lemma foldl_store_lookup_unique (tasks : list MyAirdrops.DetailTask)
  (d : gmap string MyAirdrops.Airdrop.t) k a :
  (∀ task a', task ∈ tasks -> succeeded task = Some (k, a') -> a' = a) ->
  d !! k = Some a ∨ (∃ task, task ∈ tasks ∧ succeeded task = Some (k, a)) ->
  foldl store d tasks !! k = Some a.
Proof.
  revert d. induction tasks as [|task tasks IH]; intros d Huniq; simpl.
  - intros [?|(task & Hin & _)]; [done|]. by apply elem_of_nil in Hin.
  - intros H. apply IH.
    { intros task' a' Hin. apply Huniq. by right. }
    assert (Hhead : ∀ a', succeeded task = Some (k, a') -> a' = a).
    { intros a'. apply Huniq. left. }
    destruct H as [Hd|(task' & Hin & Hs)].
    + left. unfold store. destruct (succeeded task) as [[k' a']|] eqn:Hs; [|done].
      destruct (decide (k' = k)) as [->|Hne]; [|by rewrite lookup_insert_ne].
      rewrite lookup_insert_eq. f_equal. by apply Hhead.
    + apply elem_of_cons in Hin as [->|Hin].
      * left. unfold store. rewrite Hs. by rewrite lookup_insert_eq.
      * right. eauto.
Qed.

Lemma elem_of_detailTasks net data (task : MyAirdrops.DetailTask) :
  task ∈ detailTasks net data <->
  ∃ i ua, data !! i = Some ua ∧ task = (ua, MyAirdrops.airdropResponse net i ua).
Proof.
  unfold detailTasks. rewrite elem_of_lookup_imap.
  split; intros (i & ua & H1 & H2); exists i, ua; done.
Qed.

Lemma succeeded_detail net i ua k a :
  succeeded (ua, MyAirdrops.airdropResponse net i ua) = Some (k, a) <->
  MyAirdrops.airdropResponse net i ua = Normal (Ok2xx (Normal a))
  ∧ MyAirdrops.UserAirdropStatus.airdrop_id ua = k.
Proof.
  unfold succeeded.
  destruct (MyAirdrops.airdropResponse net i ua) as [[[b|e]|[x|e]]|e];
    (split; [intros H | intros [H ?]]); try discriminate H.
  - by injection H as <- <-.
  - injection H as ->. by subst.
Qed.

(** C6: the per-airdrop detail fetches fail one by one.  Whatever the
    order in which the concurrent tasks run to completion, and however
    many of them are rejected, answer non-OK or carry a body that does
    not parse, the load completes normally and stores a mapping in which
    every fetch that succeeded has its entry, and every entry comes from
    a fetch that succeeded; when the fetched list names each airdrop
    once, the entry of a successful fetch is the very body it returned. *)
Theorem detail_fetches_fail_independently
  (net : MyAirdrops.Network) (data : list MyAirdrops.UserAirdropStatus.t)
  (env : Env MyAirdrops.State) :
  (∀ tasks, MyAirdrops.completionOrder net tasks ≡ₚ tasks) ->
  MyAirdrops.userAirdropsResponse net = Normal (Ok2xx (Normal data)) ->
  let details := MyAirdrops.airdropDetails (ui (snd (MyAirdrops.loadUserAirdrops net env))) in
  fst (MyAirdrops.loadUserAirdrops net env) = Normal tt
  ∧ (∀ i ua a, data !! i = Some ua ->
       MyAirdrops.airdropResponse net i ua = Normal (Ok2xx (Normal a)) ->
       is_Some (details !! MyAirdrops.UserAirdropStatus.airdrop_id ua))
  ∧ (∀ k a, details !! k = Some a ->
       ∃ i ua, data !! i = Some ua
               ∧ MyAirdrops.UserAirdropStatus.airdrop_id ua = k
               ∧ MyAirdrops.airdropResponse net i ua = Normal (Ok2xx (Normal a)))
  ∧ (NoDup (MyAirdrops.UserAirdropStatus.airdrop_id <$> data) ->
     ∀ i ua a, data !! i = Some ua ->
       MyAirdrops.airdropResponse net i ua = Normal (Ok2xx (Normal a)) ->
       details !! MyAirdrops.UserAirdropStatus.airdrop_id ua = Some a).
Proof.
  intros Hperm Hlist details.
  destruct (loadUserAirdrops_run net env) as [log Hrun].
  subst details. rewrite Hrun, Hlist. simpl.
  set (tasks := MyAirdrops.completionOrder net (detailTasks net data)).
  assert (Hin : ∀ task, task ∈ tasks <->
    ∃ i ua, data !! i = Some ua ∧ task = (ua, MyAirdrops.airdropResponse net i ua)).
  { intros task. unfold tasks. rewrite (Hperm (detailTasks net data)).
    apply elem_of_detailTasks. }
  split_and!; [done|..].
  - intros i ua a Hi Hok. apply foldl_store_lookup_is_Some. right.
    exists (ua, MyAirdrops.airdropResponse net i ua), a. split.
    + apply Hin. eauto.
    + by apply succeeded_detail.
  - intros k a [Hd|(task & Htask & Hs)]%foldl_store_lookup_Some; [done|].
    apply Hin in Htask as (i & ua & Hi & ->).
    apply succeeded_detail in Hs as [Hok Hk]. eauto.
  - intros Hnodup i ua a Hi Hok. apply foldl_store_lookup_unique.
    + intros task a' Htask Hs.
      apply Hin in Htask as (j & ua' & Hj & ->).
      apply succeeded_detail in Hs as [Hok' Hk].
      assert (j = i) as ->.
      { eapply NoDup_lookup; [exact Hnodup| |];
          rewrite list_lookup_fmap; [rewrite Hj|rewrite Hi]; simpl; by rewrite ?Hk. }
      assert (ua' = ua) as -> by congruence. congruence.
    + right. exists (ua, MyAirdrops.airdropResponse net i ua). split.
      * apply Hin. eauto.
      * by apply succeeded_detail.
Qed.

Lemma detail_fetches_fail_independently_witness :
  let net := Example.partialFailure in
  let env := mkEnv MyAirdrops.initial [] [] in
  fst (MyAirdrops.loadUserAirdrops net env) = Normal tt
  ∧ MyAirdrops.airdropDetails (ui (snd (MyAirdrops.loadUserAirdrops net env))) !! "a2"
    = Some Example.a2.
Proof.
  intros net env.
  assert (Hperm : ∀ tasks, MyAirdrops.completionOrder net tasks ≡ₚ tasks)
    by (intros; apply reverse_Permutation).
  assert (Hnodup : NoDup (MyAirdrops.UserAirdropStatus.airdrop_id <$> [Example.u1; Example.u2]))
    by (apply (bool_decide_unpack _); vm_compute; reflexivity).
  destruct (detail_fetches_fail_independently net [Example.u1; Example.u2] env Hperm eq_refl)
    as (Hdone & _ & _ & Hentry).
  split; [exact Hdone|].
  exact (Hentry Hnodup 1%nat Example.u2 Example.a2 eq_refl eq_refl).
Defined.

(** In the scenario the rejected fetch leaves no entry, and the
    successful one is there. *)
Example partialFailure_details :
  MyAirdrops.airdropDetails
    (ui (snd (MyAirdrops.loadUserAirdrops Example.partialFailure
                (mkEnv MyAirdrops.initial [] []))))
  = {[ "a2" := Example.a2 ]}.
Proof. vm_compute. reflexivity. Qed.

(** *** The loading flag *)

(** C8: however the initial load of a screen ends (the data arrived,
    the server answered non-OK, the request was rejected, a body did not
    parse), the load completes and leaves the screen's loading flag
    [false]. *)
Theorem loading_cleared_on_every_outcome :
  (∀ net env,
     fst (MyAirdrops.loadUserAirdrops net env) = Normal tt
     ∧ MyAirdrops.loading (ui (snd (MyAirdrops.loadUserAirdrops net env))) = false)
  ∧ (∀ fetched env,
       fst (Profile.loadUserData fetched env) = Normal tt
       ∧ Profile.loading (ui (snd (Profile.loadUserData fetched env))) = false)
  ∧ (∀ fetched env,
       fst (AirdropDetail.fetchAirdropDetails fetched env) = Normal tt
       ∧ AirdropDetail.loading (ui (snd (AirdropDetail.fetchAirdropDetails fetched env))) = false)
  ∧ (∀ net env,
       fst (Index.loadInitialData net env) = Normal tt
       ∧ Index.loading (ui (snd (Index.loadInitialData net env))) = false).
Proof.
  split_and!.
  - intros net env. destruct (loadUserAirdrops_run net env) as [log ->]. done.
  - intros [[[u|e]|[x|e]]|e] [st c a]; done.
  - intros [[[d|e]|[x|e]]|e] [st c a]; done.
  - intros [[[[d|e]|[x|e]]|e] [[[u|e']|[x'|e']]|e'] []] [st c a]; done.
Qed.

(** *** The daily check-in *)

(** C9 as stated fails on the catalog screen: after a successful
    check-in there the user's [last_checkin] is what it was (here:
    absent), not the current time. *)
Lemma checkin_last_checkin_counterexample :
  let st := Index.mkState true [] (Some Example.visitor) false false "all" false in
  let fetched := Normal (Ok2xx (Normal Example.checkin)) in
  Index.user (ui (snd (Index.handleDailyCheckin fetched (mkEnv st [] []))))
  = Some (Index.User.mk "user_123" 20 2 None).
Proof. reflexivity. Qed.

(** C9, amended: a successful check-in on the profile screen replaces
    [total_points] and [daily_streak] by the server's numbers and
    [last_checkin] by the current time, and keeps [id],
    [wallet_addresses], [preferences] and [created_at]; on the catalog
    screen it replaces [total_points] and [daily_streak] and keeps [id]
    and [last_checkin].  A missing user record stays missing, and no
    other cell of the screen state changes.  A check-in that fails (the request is rejected, the server answers
    non-OK, or the body does not parse) leaves the whole screen state,
    the user record included, as it was. *)
Theorem checkin_updates_only_checkin_fields
  (result : Checkin.Result) (now : Z)
  (profile : Env Profile.State) (index : Env Index.State) :
  let ok := Normal (Ok2xx (Normal result)) in
  (match Profile.user (ui profile),
         Profile.user (ui (snd (Profile.handleDailyCheckin ok now profile))) with
   | Some u, Some u' =>
       Profile.User.total_points u' = Checkin.total_points result
       ∧ Profile.User.daily_streak u' = Checkin.streak result
       ∧ Profile.User.last_checkin u' = Some (Date.ISOString now)
       ∧ Profile.User.id u' = Profile.User.id u
       ∧ Profile.User.wallet_addresses u' = Profile.User.wallet_addresses u
       ∧ Profile.User.preferences u' = Profile.User.preferences u
       ∧ Profile.User.created_at u' = Profile.User.created_at u
   | None, None => True
   | _, _ => False
   end)
  ∧ (match Index.user (ui index),
           Index.user (ui (snd (Index.handleDailyCheckin ok index))) with
     | Some u, Some u' =>
         Index.User.total_points u' = Checkin.total_points result
         ∧ Index.User.daily_streak u' = Checkin.streak result
         ∧ Index.User.id u' = Index.User.id u
         ∧ Index.User.last_checkin u' = Index.User.last_checkin u
     | None, None => True
     | _, _ => False
     end)
  ∧ (ui (snd (Profile.handleDailyCheckin ok now profile))
     = Profile.setUser
         (fun _ => Profile.user (ui (snd (Profile.handleDailyCheckin ok now profile))))
         (ui profile)
     ∧ ui (snd (Index.handleDailyCheckin ok index))
       = Index.setUser
           (fun _ => Index.user (ui (snd (Index.handleDailyCheckin ok index))))
           (ui index))
  ∧ (∀ failed,
       (∀ r, failed ≠ Normal (Ok2xx (Normal r))) ->
       ui (snd (Profile.handleDailyCheckin failed now profile)) = ui profile
       ∧ ui (snd (Index.handleDailyCheckin failed index)) = ui index).
Proof.
  destruct profile as [[pu pl pd pn] pc pa], index as [[d a iu l r f m] ic ia].
  split_and!.
  - destruct pu as [u|]; simpl; done.
  - destruct iu as [u|]; simpl; done.
  - done.
  - done.
  - intros [[[res|e]|[x|e]]|e] Hfailed; try done. by destruct (Hfailed res).
Qed.

End HandlerFacts.

(** ** Calendar dates *)

Section DateFacts.
Import Date.
Local Open Scope Z_scope.

(** *** Years, months and days *)

Lemma DayFromYear_step y : DayFromYear (y + 1) = DayFromYear y + DaysInYear y.
Proof.
  unfold DayFromYear, DaysInYear.
  destruct (Z.eqb_spec (y mod 4) 0), (Z.eqb_spec (y mod 100) 0), (Z.eqb_spec (y mod 400) 0); simpl;
  Z.div_mod_to_equations; lia.
Qed.

Lemma YearFromTime_bracket t :
  DayFromYear (YearFromTime t) <= Day t < DayFromYear (YearFromTime t + 1).
Proof.
  unfold YearFromTime. generalize (Day t). intros d. cbv zeta.
  destruct (Z.ltb_spec d (DayFromYear (1970 + 400 * d / 146097))) as [H1|H1].
  - replace (1970 + 400 * d / 146097 - 1 + 1) with (1970 + 400 * d / 146097) by lia.
    split; [|exact H1]. unfold DayFromYear in *. Z.div_mod_to_equations. lia.
  - destruct (Z.leb_spec (DayFromYear (1970 + 400 * d / 146097 + 1)) d) as [H2|H2].
    + split; [exact H2|]. unfold DayFromYear in *. Z.div_mod_to_equations. lia.
    + split; [exact H1|exact H2].
Qed.

Lemma DayFromYear_mono y1 y2 : y1 <= y2 -> DayFromYear y1 <= DayFromYear y2.
Proof. intros H. unfold DayFromYear. Z.div_mod_to_equations. lia. Qed.

Lemma TimeFromYear_le_iff y t : TimeFromYear y <= t <-> DayFromYear y <= Day t.
Proof.
  unfold TimeFromYear, Day, msPerDay. generalize (DayFromYear y). intros d.
  Z.div_mod_to_equations. lia.
Qed.

(** [YearFromTime t] is the largest year [y] with [TimeFromYear y <= t]. *)
Lemma YearFromTime_largest t :
  TimeFromYear (YearFromTime t) <= t
  /\ forall y, TimeFromYear y <= t -> y <= YearFromTime t.
Proof.
  pose proof (YearFromTime_bracket t) as [Hlo Hhi].
  split; [by apply TimeFromYear_le_iff|].
  intros y Hy%TimeFromYear_le_iff.
  destruct (Z.le_gt_cases y (YearFromTime t)) as [|Hgt]; [done|].
  pose proof (DayFromYear_mono (YearFromTime t + 1) y ltac:(lia)). lia.
Qed.

Lemma DaysInYear_cases y : DaysInYear y = 365 \/ DaysInYear y = 366.
Proof. unfold DaysInYear. repeat case_match; auto. Qed.

Lemma DayWithinYear_range t : 0 <= DayWithinYear t < DaysInYear (YearFromTime t).
Proof.
  unfold DayWithinYear. pose proof (YearFromTime_bracket t) as H.
  rewrite DayFromYear_step in H. lia.
Qed.

Lemma InLeapYear_cases t :
  (InLeapYear t = 0 /\ DaysInYear (YearFromTime t) = 365)
  \/ (InLeapYear t = 1 /\ DaysInYear (YearFromTime t) = 366).
Proof.
  unfold InLeapYear. destruct (DaysInYear_cases (YearFromTime t)) as [H|H]; rewrite H; simpl; auto.
Qed.

Ltac split_ltb :=
  repeat match goal with
    | |- context [Z.ltb ?a ?b] => destruct (Z.ltb_spec a b)
    | H : context [Z.ltb ?a ?b] |- _ => destruct (Z.ltb_spec a b)
    end.

Lemma MonthFromTime_range t : 0 <= MonthFromTime t <= 11.
Proof. unfold MonthFromTime. cbv zeta. split_ltb; lia. Qed.

Lemma DateFromTime_range t : 1 <= DateFromTime t <= 31.
Proof.
  pose proof (DayWithinYear_range t) as Hr.
  unfold DateFromTime, MonthFromTime. cbv zeta.
  destruct (InLeapYear_cases t) as [[-> HL]|[-> HL]]; rewrite HL in Hr;
    split_ltb; cbn match; lia.
Qed.

Lemma civil_inj t1 t2 :
  YearFromTime t1 = YearFromTime t2 ->
  MonthFromTime t1 = MonthFromTime t2 ->
  DateFromTime t1 = DateFromTime t2 ->
  Day t1 = Day t2.
Proof.
  intros Hy Hm Hd.
  assert (HL : InLeapYear t1 = InLeapYear t2) by (unfold InLeapYear; by rewrite Hy).
  assert (Hw : DayWithinYear t1 = DayWithinYear t2).
  { unfold DateFromTime in Hd. rewrite <- Hm in Hd. 
    unfold MonthFromTime in Hd, Hm. cbv zeta in Hd, Hm. rewrite <- HL in Hd, Hm.
    revert Hm Hd. generalize (DayWithinYear t1) (DayWithinYear t2) (InLeapYear t1).
    intros d1 d2 L. split_ltb; cbn match; lia. }
  unfold DayWithinYear in Hw. rewrite Hy in Hw. lia.
Qed.

Lemma WeekDay_range t : 0 <= WeekDay t <= 6.
Proof. unfold WeekDay. pose proof (Z.mod_pos_bound (Day t + 4) 7). lia. Qed.

(** *** The date string *)

Lemma split_at_space s1 s2 r1 r2 :
  has_space s1 = false -> has_space s2 = false ->
  s1 +:+ String " " r1 = s2 +:+ String " " r2 -> s1 = s2 /\ r1 = r2.
Proof.
  revert s2. induction s1 as [|c1 s1 IH]; intros [|c2 s2]; simpl.
  - intros _ _ H. by injection H.
  - intros _ H2 H. injection H as <- _. by rewrite Ascii.eqb_refl in H2.
  - intros H1 _ H. injection H as -> _. by rewrite Ascii.eqb_refl in H1.
  - intros H1 H2 H. injection H as -> H.
    destruct (Ascii.eqb c2 " "); [done|].
    destruct (IH s2 H1 H2 H) as [-> ->]. done.
Qed.

Lemma string_of_uint_no_space d : has_space (NilEmpty.string_of_uint d) = false.
Proof. induction d; simpl; done. Qed.

Lemma string_of_uint_no_sign d s : NilEmpty.string_of_uint d <> String "-" s.
Proof. destruct d; simpl; intros H; discriminate H. Qed.

Lemma to_uint_normal n : unorm (N.to_uint n) = N.to_uint n.
Proof. rewrite <- DecimalN.Unsigned.to_of. by rewrite DecimalN.Unsigned.of_to. Qed.

Lemma ToZeroPaddedDecimalString_inj n m k :
  0 <= n -> 0 <= m ->
  ToZeroPaddedDecimalString n k = ToZeroPaddedDecimalString m k -> n = m.
Proof.
  unfold ToZeroPaddedDecimalString. cbv zeta. intros Hn Hm H.
  apply (f_equal NilEmpty.uint_of_string) in H. rewrite !NilEmpty.usu in H.
  injection H as H. apply (f_equal unorm) in H.
  rewrite !unorm_iter_D0, !to_uint_normal in H.
  apply DecimalN.Unsigned.to_uint_inj in H. lia.
Qed.

Lemma ToZeroPaddedDecimalString_no_space n k :
  has_space (ToZeroPaddedDecimalString n k) = false.
Proof. apply string_of_uint_no_space. Qed.

Lemma weekdayName_no_space w : has_space (weekdayName w) = false.
Proof. unfold weekdayName. repeat case_match; reflexivity. Qed.

Lemma monthName_no_space m : has_space (monthName m) = false.
Proof. unfold monthName. repeat case_match; reflexivity. Qed.

Lemma monthName_inj m1 m2 :
  0 <= m1 <= 11 -> 0 <= m2 <= 11 -> monthName m1 = monthName m2 -> m1 = m2.
Proof.
  intros H1 H2.
  assert (Hc1 : m1 = 0 \/ m1 = 1 \/ m1 = 2 \/ m1 = 3 \/ m1 = 4 \/ m1 = 5 \/ m1 = 6
                \/ m1 = 7 \/ m1 = 8 \/ m1 = 9 \/ m1 = 10 \/ m1 = 11) by lia.
  assert (Hc2 : m2 = 0 \/ m2 = 1 \/ m2 = 2 \/ m2 = 3 \/ m2 = 4 \/ m2 = 5 \/ m2 = 6
                \/ m2 = 7 \/ m2 = 8 \/ m2 = 9 \/ m2 = 10 \/ m2 = 11) by lia.
  clear H1 H2.
  repeat (destruct Hc1 as [->|Hc1]); try subst m1;
    repeat (destruct Hc2 as [->|Hc2]); try subst m2;
    simpl; intros H; first [reflexivity | discriminate H].
Qed.

Lemma DateString_inj t1 t2 :
  DateString t1 = DateString t2 ->
  YearFromTime t1 = YearFromTime t2
  /\ MonthFromTime t1 = MonthFromTime t2
  /\ DateFromTime t1 = DateFromTime t2.
Proof.
  unfold DateString. cbv zeta. intros H.
  apply split_at_space in H as [_ H]; [|apply weekdayName_no_space..].
  apply split_at_space in H as [Hm H]; [|apply monthName_no_space..].
  apply split_at_space in H as [Hd H]; [|apply ToZeroPaddedDecimalString_no_space..].
  apply monthName_inj in Hm; [|apply MonthFromTime_range..].
  apply ToZeroPaddedDecimalString_inj in Hd;
    [|pose proof (DateFromTime_range t1); lia|pose proof (DateFromTime_range t2); lia].
  split; [|done].
  destruct (Z.leb_spec 0 (YearFromTime t1)) as [H1|H1],
           (Z.leb_spec 0 (YearFromTime t2)) as [H2|H2];
    cbv beta iota fix delta [String.append] in H.
  - apply ToZeroPaddedDecimalString_inj in H; lia.
  - unfold ToZeroPaddedDecimalString in H. by apply string_of_uint_no_sign in H.
  - symmetry in H. unfold ToZeroPaddedDecimalString in H.
    by apply string_of_uint_no_sign in H.
  - injection H as H. apply ToZeroPaddedDecimalString_inj in H; lia.
Qed.

Lemma DateString_valid t : DateString t <> "Invalid Date".
Proof.
  unfold DateString, weekdayName. cbv zeta.
  repeat case_match; cbv beta iota fix delta [String.append];
    intros Heq; discriminate Heq.
Qed.

Lemma DateString_same_day t1 t2 : Day t1 = Day t2 -> DateString t1 = DateString t2.
Proof.
  intros H.
  assert (Hy : YearFromTime t1 = YearFromTime t2) by (unfold YearFromTime; by rewrite H).
  assert (Hw : DayWithinYear t1 = DayWithinYear t2) by (unfold DayWithinYear; by rewrite H, Hy).
  assert (HL : InLeapYear t1 = InLeapYear t2) by (unfold InLeapYear; by rewrite Hy).
  assert (Hm : MonthFromTime t1 = MonthFromTime t2) by (unfold MonthFromTime; by rewrite Hw, HL).
  assert (Hd : DateFromTime t1 = DateFromTime t2) by (unfold DateFromTime; by rewrite Hw, HL, Hm).
  unfold DateString, WeekDay. by rewrite H, Hy, Hm, Hd.
Qed.

(** Two valid dates print the same date string exactly when their local
    times fall on the same day, that is on the same calendar date. *)
Lemma toDateString_same_date (h : Host) (t1 t2 : Z) :
  (toDateString h (Some t1) = toDateString h (Some t2)
   <-> calendarDate h t1 = calendarDate h t2)
  /\ (calendarDate h t1 = calendarDate h t2
      <-> Day (LocalTime h t1) = Day (LocalTime h t2)).
Proof.
  unfold toDateString, calendarDate. cbv zeta.
  assert (Hday : YearFromTime (LocalTime h t1) = YearFromTime (LocalTime h t2)
                 /\ MonthFromTime (LocalTime h t1) = MonthFromTime (LocalTime h t2)
                 /\ DateFromTime (LocalTime h t1) = DateFromTime (LocalTime h t2)
                 -> Day (LocalTime h t1) = Day (LocalTime h t2)).
  { intros (Hy & Hm & Hd). by apply civil_inj. }
  split; split.
  - intros (Hy & Hm & Hd)%DateString_inj. by rewrite Hy, Hm, Hd.
  - intros H. injection H as Hy Hm Hd. apply DateString_same_day. by apply Hday.
  - intros H. injection H as Hy Hm Hd. by apply Hday.
  - intros (Hy & Hm & Hd)%DateString_same_day%DateString_inj. by rewrite Hy, Hm, Hd.
Qed.

(** [canCheckinToday] by cases on the stored timestamp. *)
Lemma canCheckinToday_cases (h : Host) (now : Z) (st : Profile.State) :
  Profile.canCheckinToday h now st =
    match Profile.user st ≫= Profile.User.last_checkin with
    | None => true
    | Some s =>
        if String.eqb s "" then true
        else match of_string h s with
             | None => true
             | Some t => negb (bool_decide (calendarDate h t = calendarDate h now))
             end
    end.
Proof.
  unfold Profile.canCheckinToday.
  destruct (Profile.user st ≫= Profile.User.last_checkin) as [s|]; [|done].
  destruct (String.eqb s ""); [done|].
  unfold of_now. cbv zeta.
  destruct (of_string h s) as [t|].
  - destruct (toDateString_same_date h t now) as [Hiff _].
    destruct (String.eqb_spec (toDateString h (Some t)) (toDateString h (Some now))) as [He|Hne].
    + by rewrite bool_decide_true by (by apply Hiff).
    + by rewrite bool_decide_false by (by rewrite <- Hiff).
  - destruct (String.eqb_spec (toDateString h None) (toDateString h (Some now))) as [He|Hne];
      [|done].
    simpl in He. symmetry in He. by apply DateString_valid in He.
Qed.

(** With a stored timestamp the host can read, the answer is the
    comparison of the two date strings. *)
Lemma canCheckinToday_stored (h : Host) (now : Z) (st : Profile.State) u s t :
  Profile.user st = Some u -> Profile.User.last_checkin u = Some s -> s ≠ "" ->
  of_string h s = Some t ->
  Profile.canCheckinToday h now st
  = negb (String.eqb (toDateString h (Some t)) (toDateString h (Some now))).
Proof.
  intros Hu Hlast Hs Hparse. unfold Profile.canCheckinToday. rewrite Hu. simpl.
  rewrite Hlast. destruct (String.eqb_spec s "") as [?|_]; [done|].
  unfold of_now. by rewrite Hparse.
Qed.

(** In every time zone on a fixed offset: a check-in stored as 23:59
    local time, read two minutes later at 00:01 of the next day. *)
Lemma canCheckinToday_across_midnight (offset : Z) :
  let h := fixed_offset offset in
  let t := 1704153540000 - offset in
  let now := 1704153660000 - offset in
  (Z.abs t <= 8640000000000000 -> of_string h "2024-01-01T23:59:00" = Some t)
  /\ now - t = 2 * msPerMinute
  /\ toDateString h (Some t) = "Mon Jan 01 2024"
  /\ toDateString h (Some now) = "Tue Jan 02 2024"
  /\ (Z.abs t <= 8640000000000000 ->
      Profile.canCheckinToday h now (Example.checkedInAt "2024-01-01T23:59:00") = true).
Proof.
  intros h t now.
  assert (Hparse : Z.abs t <= 8640000000000000 -> of_string h "2024-01-01T23:59:00" = Some t).
  { intros Hclip. unfold of_string, h, fixed_offset, parse, parse_iso.
    replace (parse_fields "2024-01-01T23:59:00") with (Some (1704153540000, false))
      by (vm_compute; reflexivity).
    cbn [mbind option_bind]. fold t. unfold TimeClip.
    by destruct (Z.leb_spec (Z.abs t) 8640000000000000); [|lia]. }
  assert (Ht : toDateString h (Some t) = "Mon Jan 01 2024").
  { unfold toDateString, LocalTime, t, h, fixed_offset, LocalTZA.
    replace (1704153540000 - offset + offset) with 1704153540000 by lia.
    vm_compute. reflexivity. }
  assert (Hnow : toDateString h (Some now) = "Tue Jan 02 2024").
  { unfold toDateString, LocalTime, now, h, fixed_offset, LocalTZA.
    replace (1704153660000 - offset + offset) with 1704153660000 by lia.
    vm_compute. reflexivity. }
  split_and!; [done | unfold now, t, msPerMinute; lia | done | done |].
  intros Hclip.
  erewrite (canCheckinToday_stored h now (Example.checkedInAt "2024-01-01T23:59:00"));
    [|reflexivity|reflexivity|discriminate|exact (Hparse Hclip)].
  rewrite Ht, Hnow. reflexivity.
Qed.

(** C3: [canCheckinToday] answers [true] when there is no stored
    check-in timestamp (no user, no [last_checkin], or an empty one),
    whatever the clock reads; with a stored
    timestamp it answers [false] when the timestamp and the clock fall
    on the same local calendar date and [true] when their local calendar
    dates differ, whatever the time elapsed: a check-in at 23:59 read at
    00:01 of the next day, two minutes later, answers [true]. *)
Theorem canCheckinToday_calendar_date (h : Host) (now : Z) (st : Profile.State) :
  (Profile.user st = None -> Profile.canCheckinToday h now st = true)
  /\ (∀ u, Profile.user st = Some u ->
            Profile.User.last_checkin u = None ∨ Profile.User.last_checkin u = Some "" ->
            Profile.canCheckinToday h now st = true)
  /\ (∀ u s t, Profile.user st = Some u -> Profile.User.last_checkin u = Some s ->
         s ≠ "" -> of_string h s = Some t ->
         (calendarDate h t = calendarDate h now -> Profile.canCheckinToday h now st = false)
         /\ (calendarDate h t ≠ calendarDate h now -> Profile.canCheckinToday h now st = true))
  /\ (let utc := fixed_offset 0 in
      let checkin := Example.checkedInAt "2024-01-01T23:59:00" in
      ∃ t next same,
        of_string utc "2024-01-01T23:59:00" = Some t
        /\ of_string utc "2024-01-02T00:01:00" = Some next
        /\ of_string utc "2024-01-01T00:01:00" = Some same
        /\ next - t < msPerDay
        /\ Profile.canCheckinToday utc next checkin = true
        /\ Profile.canCheckinToday utc same checkin = false).
Proof.
  rewrite canCheckinToday_cases. split_and!.
  - by intros ->.
  - intros u -> [Hlast|Hlast]; simpl; by rewrite Hlast.
  - intros u s t -> Hlast Hs Hparse. simpl. rewrite Hlast, Hparse.
    destruct (String.eqb_spec s "") as [?|_]; [done|].
    split; intros Hdate.
    + by rewrite bool_decide_true.
    + by rewrite bool_decide_false.
  - exists 1704153540000, 1704153660000, 1704067260000. vm_compute. split_and!; reflexivity.
Qed.

End DateFacts.

(** ** More of the tracked-airdrop screen *)

Section MyAirdropsScreenFacts.
Import Js MyAirdrops.





Lemma handleRefresh_run (net : Network) (env : Env State) :
  ∃ log,
    handleRefresh net env
    = (Normal tt,
       mkEnv
         (setRefreshing false
            (setLoading false
               match userAirdropsResponse net with
               | Normal (Ok2xx (Normal data)) =>
                   setAirdropDetails
                     (foldl store ∅ (completionOrder net (detailTasks net data)))
                     (setUserAirdrops data (setRefreshing true (ui env)))
               | _ => setRefreshing true (ui env)
               end))
         (console env ++ log) (alerts env)).
Proof.
  unfold handleRefresh, mbind, M_bind, bind, setState.
  destruct (loadUserAirdrops_run net
              (mkEnv (setRefreshing true (ui env)) (console env) (alerts env))) as [log ->].
  by exists log.
Qed.

(** X2: a pull to refresh ends with the refresh control and the loading
    screen off and leaves the selected filter alone.  When the list
    request fails in any way, the list and the detail mapping of the
    previous load stay.  When it succeeds, the list is replaced and the
    detail mapping is built anew from nothing: it has an entry for an
    airdrop exactly when a detail fetch of this refresh succeeded for
    it, so an entry of the previous load whose fetch now fails is
    gone. *)
Theorem refresh_rebuilds_details (net : Network) (env : Env State) :
  (∀ tasks, completionOrder net tasks ≡ₚ tasks) ->
  let env' := snd (handleRefresh net env) in
  fst (handleRefresh net env) = Normal tt
  ∧ refreshing (ui env') = false
  ∧ loading (ui env') = false
  ∧ selectedFilter (ui env') = selectedFilter (ui env)
  ∧ alerts env' = alerts env
  ∧ match userAirdropsResponse net with
    | Normal (Ok2xx (Normal data)) =>
        userAirdrops (ui env') = data
        ∧ ∀ k, is_Some (airdropDetails (ui env') !! k)
               <-> ∃ i ua a, data !! i = Some ua
                             ∧ UserAirdropStatus.airdrop_id ua = k
                             ∧ airdropResponse net i ua = Normal (Ok2xx (Normal a))
    | _ =>
        userAirdrops (ui env') = userAirdrops (ui env)
        ∧ airdropDetails (ui env') = airdropDetails (ui env)
    end.
Proof.
  intros Hperm env'. subst env'.
  destruct (handleRefresh_run net env) as [log ->]. simpl.
  destruct (userAirdropsResponse net) as [[[data|e]|[x|e]]|e]; simpl; split_and!; try done.
  intros k.
  set (tasks := completionOrder net (detailTasks net data)).
  assert (Hin : ∀ task, task ∈ tasks <->
    ∃ i ua, data !! i = Some ua ∧ task = (ua, airdropResponse net i ua)).
  { intros task. unfold tasks. rewrite (Hperm (detailTasks net data)).
    apply elem_of_detailTasks. }
  split.
  - intros [a Ha].
    apply foldl_store_lookup_Some in Ha as [Ha|(task & Htask & Hs)]; [done|].
    apply Hin in Htask as (i & ua & Hi & ->).
    apply succeeded_detail in Hs as [Hok Hk]. eauto 6.
  - intros (i & ua & a & Hi & Hk & Hok).
    apply foldl_store_lookup_is_Some. right.
    exists (ua, airdropResponse net i ua), a. split.
    + apply Hin. eauto.
    + by apply succeeded_detail.
Qed.

Lemma refresh_rebuilds_details_witness :
  let before := mkState [Example.u1] {[ "a1" := Example.a1 ]} false false "in_progress" in
  let env' := snd (handleRefresh Example.partialFailure (mkEnv before [] [])) in
  refreshing (ui env') = false
  ∧ selectedFilter (ui env') = "in_progress"
  ∧ userAirdrops (ui env') = [Example.u1; Example.u2]
  ∧ airdropDetails (ui env') !! "a1" = None.
Proof.
  intros before env'.
  destruct (refresh_rebuilds_details Example.partialFailure (mkEnv before [] [])
              (fun tasks => reverse_Permutation tasks))
    as (_ & Hr & _ & Hf & _ & Hlist & Hdetails).
  split_and!; [exact Hr | exact Hf | exact Hlist |].
  destruct (airdropDetails (ui env') !! "a1") as [a|] eqn:Ha; [|reflexivity].
  destruct (proj1 (Hdetails "a1") (ex_intro _ a Ha)) as (i & ua & a' & Hi & Hk & Hok).
  destruct i as [|[|i]]; simpl in Hi; [| |discriminate Hi];
    injection Hi as <-; [discriminate Hok | discriminate Hk].
Defined.

(** Handlers never turn the loading screen back on, and leave the
    refresh control off and the filter on a chip. *)
Lemma handle_invariant (e : Event) (env : Env State) :
  let env' := snd (handle e env) in
  (loading (ui env) = false \/ (∃ net, e = Mount net) -> loading (ui env') = false)
  ∧ (refreshing (ui env) = false -> refreshing (ui env') = false)
  ∧ (selectedFilter (ui env) ∈ chips -> selectedFilter (ui env') ∈ chips).
Proof.
  destruct e as [net|net|i|ua]; simpl.
  - destruct (loadUserAirdrops_run net env) as [log ->]. simpl.
    destruct (userAirdropsResponse net) as [[[data|e]|[x|e]]|e]; simpl; split_and!; done.
  - destruct (handleRefresh_run net env) as [log ->]. simpl.
    destruct (userAirdropsResponse net) as [[[data|e]|[x|e]]|e]; simpl; split_and!; done.
  - destruct (chips !! i) as [f|] eqn:Hi; simpl.
    + split_and!; try done.
      * by intros [?|[net [=]]].
      * intros _. by eapply list_elem_of_lookup_2.
    + split_and!; try done. by intros [?|[net [=]]].
  - split_and!; try done. by intros [?|[net [=]]].
Qed.

Lemma chip_highlighted (st : State) :
  selectedFilter st ∈ chips ->
  length (List.filter (fun c => String.eqb (chipBackground c) (accent theme)) (renderFilters st))
  = 1%nat
  ∧ ∀ c, c ∈ renderFilters st ->
         (chipBackground c = accent theme <-> chipKey c = selectedFilter st).
Proof.
  unfold chips, renderFilters. intros Hin.
  rewrite !elem_of_cons in Hin.
  destruct Hin as [->|[->|[->|[->|Hin]]]]; [..|by apply elem_of_nil in Hin];
    (split; [reflexivity|]);
    intros c Hc; simpl in Hc; rewrite !elem_of_cons in Hc;
    destruct Hc as [->|[->|[->|[->|Hc]]]]; try (by apply elem_of_nil in Hc);
    simpl; split; intros Heq; first [done | discriminate Heq].
Qed.

(** X3: in every session of the screen (the load on mount, then
    refreshes, chip presses and bell presses in any number and order,
    with the network answering in any way) the loading screen is gone
    after the mount and never comes back, the refresh control is off
    between events, the selected filter is one of the four chips and
    exactly that chip is highlighted.  A bell press changes no state
    cell: it only raises an alert. *)
Theorem session_invariants (net : Network) (events : list Event) :
  let env' := snd (session (Mount net :: events) (mkEnv initial [] [])) in
  loading (ui env') = false
  ∧ refreshing (ui env') = false
  ∧ selectedFilter (ui env') ∈ chips
  ∧ length (List.filter (fun c => String.eqb (chipBackground c) (accent theme))
              (renderFilters (ui env'))) = 1%nat
  ∧ (∀ c, c ∈ renderFilters (ui env') ->
          (chipBackground c = accent theme <-> chipKey c = selectedFilter (ui env')))
  ∧ (∀ ua env, ui (snd (handle (PressReminder ua) env)) = ui env
               ∧ ∃ message, alerts (snd (handle (PressReminder ua) env))
                            = alerts env ++ [("Reminder Settings", message)]).
Proof.
  intros env'.
  assert (Hinv : loading (ui env') = false ∧ refreshing (ui env') = false
                 ∧ selectedFilter (ui env') ∈ chips).
  { subst env'. unfold session. rewrite fmap_cons. cbn [detached].
    pose proof (handle_invariant (Mount net) (mkEnv initial [] [])) as (Hl & Hr & Hf).
    cbv zeta in Hl, Hr, Hf.
    specialize (Hl (or_intror (ex_intro _ net eq_refl))).
    specialize (Hr eq_refl). specialize (Hf ltac:(by left)).
    revert Hl Hr Hf. generalize (snd (handle (Mount net) (mkEnv initial [] []))).
    induction events as [|e events IH]; intros env Hl Hr Hf; [done|].
    rewrite fmap_cons. cbn [detached].
    pose proof (handle_invariant e env) as (Hl' & Hr' & Hf'). cbv zeta in Hl', Hr', Hf'.
    apply IH; auto. }
  destruct Hinv as (Hl & Hr & Hf).
  destruct (chip_highlighted (ui env') Hf) as [Hone Hchip].
  split_and!; try done.
  intros ua env. split; [done|]. eexists. reflexivity.
Qed.

(** X4: a first load whose list request fails in any way leaves the
    main screen with the header counts at zero and the empty state of
    a user who tracks nothing, and raises no alert; it shows what the
    load of an empty list shows. *)
Theorem failed_first_load_looks_empty (toUpperCase : string -> string) (net : Network) :
  (∀ data, userAirdropsResponse net ≠ Normal (Ok2xx (Normal data))) ->
  let shown := screen toUpperCase (ui (snd (loadUserAirdrops net (mkEnv initial [] [])))) in
  shown = Normal
            (Main (mkHeader 0 0 0) (renderFilters initial)
               (EmptyState "No Tracked Airdrops"
                  "You haven't started tracking any airdrops yet." true))
  ∧ alerts (snd (loadUserAirdrops net (mkEnv initial [] []))) = []
  ∧ ∀ net', userAirdropsResponse net' = Normal (Ok2xx (Normal [])) ->
            (∀ tasks, completionOrder net' tasks ≡ₚ tasks) ->
            screen toUpperCase (ui (snd (loadUserAirdrops net' (mkEnv initial [] [])))) = shown.
Proof.
  intros Hfail shown. subst shown.
  destruct (loadUserAirdrops_run net (mkEnv initial [] [])) as [log ->].
  assert (Hempty : ∀ net', userAirdropsResponse net' = Normal (Ok2xx (Normal [])) ->
            (∀ tasks, completionOrder net' tasks ≡ₚ tasks) ->
            ui (snd (loadUserAirdrops net' (mkEnv initial [] []))) = setLoading false initial).
  { intros net' Hlist Hperm.
    destruct (loadUserAirdrops_run net' (mkEnv initial [] [])) as [log' ->].
    rewrite Hlist. simpl.
    assert (completionOrder net' (detailTasks net' []) = []) as ->; [|done].
    apply Permutation_nil_r. exact (Hperm []). }
  destruct (userAirdropsResponse net) as [[[data|e]|[x|e]]|e];
    try (by destruct (Hfail data)); simpl;
    (split_and!; [reflexivity | reflexivity |]);
    intros net' Hlist Hperm; by rewrite (Hempty net' Hlist Hperm).
Qed.

Lemma failed_first_load_looks_empty_witness :
  let offline := mkNetwork (Throw "TypeError: Network request failed")
                   (fun _ _ => Throw "TypeError: Network request failed") id in
  alerts (snd (loadUserAirdrops offline (mkEnv initial [] []))) = [].
Proof.
  intros offline.
  exact (proj1 (proj2 (failed_first_load_looks_empty asciiUpperCase offline ltac:(discriminate)))).
Defined.

End MyAirdropsScreenFacts.

(** ** More of the profile screen, and the check-in on both screens *)

Section CheckinFacts.
Import Js.

Lemma ISOString_nonempty (tv : Z) : Date.ISOString tv ≠ "".
Proof.
  unfold Date.ISOString. cbv zeta.
  match goal with |- ?y +:+ _ ≠ _ => destruct y end;
    cbv beta iota fix delta [String.append]; discriminate.
Qed.

(** X5: after a successful check-in on the profile screen, on a host
    that reads back the ISO string it prints, the check-in button is
    disabled at once and stays so at every instant of the same local
    calendar date ("Already Checked In"); at every instant of another
    local calendar date it is enabled again. *)
Theorem checkin_disables_button_for_the_day
  (h : Date.Host) (result : Checkin.Result) (now later : Z)
  (env : Env Profile.State) (u : Profile.User.t) :
  Profile.user (ui env) = Some u ->
  Date.of_string h (Date.ISOString now) = Some now ->
  let st' := ui (snd (Profile.handleDailyCheckin (Normal (Ok2xx (Normal result))) now env)) in
  Profile.checkinButton h now st' = (false, "Already Checked In")
  ∧ (calendarDate h later = calendarDate h now ->
       Profile.checkinButton h later st' = (false, "Already Checked In"))
  ∧ (calendarDate h later ≠ calendarDate h now ->
       Profile.checkinButton h later st' = (true, "Check in Today")).
Proof.
  intros Hu Hread st'.
  assert (Hcan : ∀ t, Profile.canCheckinToday h t st'
                      = negb (bool_decide (calendarDate h now = calendarDate h t))).
  { intros t. rewrite canCheckinToday_cases. subst st'.
    destruct env as [[pu pl pd pn] pc pa]. simpl in Hu. subst pu. simpl.
    destruct (String.eqb_spec (Date.ISOString now) "") as [He|_];
      [by apply ISOString_nonempty in He|].
    by rewrite Hread. }
  unfold Profile.checkinButton. rewrite !Hcan. split_and!.
  - by rewrite bool_decide_true.
  - intros Hsame. by rewrite bool_decide_true.
  - intros Hother. by rewrite bool_decide_false.
Qed.

Lemma checkin_disables_button_for_the_day_witness :
  let h := Date.fixed_offset 19800000 in
  let st' := ui (snd (Profile.handleDailyCheckin (Normal (Ok2xx (Normal Example.checkin)))
                        1704153660123
                        (mkEnv (Example.checkedInAt "2023-12-30T08:00:00Z") [] []))) in
  Profile.checkinButton h 1704153660123 st' = (false, "Already Checked In").
Proof.
  intros h st'.
  refine (proj1 (checkin_disables_button_for_the_day h Example.checkin
                   1704153660123 1704153660123
                   (mkEnv (Example.checkedInAt "2023-12-30T08:00:00Z") [] []) _ eq_refl _)).
  vm_compute. reflexivity.
Defined.

(** X6: a stored timestamp the host cannot read never locks the button:
    [canCheckinToday] answers [true]; and the answer depends on a
    readable timestamp through its local calendar date alone. *)
Theorem canCheckinToday_unreadable_timestamp
  (h : Date.Host) (now : Z) (st : Profile.State) (u : Profile.User.t) (s : string) :
  Profile.user st = Some u -> Profile.User.last_checkin u = Some s ->
  (Date.of_string h s = None -> Profile.canCheckinToday h now st = true)
  ∧ (∀ st2 u2 s2 t t2,
       Profile.user st2 = Some u2 -> Profile.User.last_checkin u2 = Some s2 ->
       s ≠ "" -> s2 ≠ "" ->
       Date.of_string h s = Some t -> Date.of_string h s2 = Some t2 ->
       calendarDate h t = calendarDate h t2 ->
       Profile.canCheckinToday h now st = Profile.canCheckinToday h now st2).
Proof.
  intros Hu Hlast. split.
  - intros Hnone. rewrite canCheckinToday_cases, Hu. simpl. rewrite Hlast, Hnone.
    by destruct (String.eqb s "").
  - intros st2 u2 s2 t t2 Hu2 Hlast2 Hs Hs2 Ht Ht2 Hdate.
    rewrite !canCheckinToday_cases, Hu, Hu2. simpl. rewrite Hlast, Hlast2, Ht, Ht2.
    destruct (String.eqb_spec s "") as [?|_]; [done|].
    destruct (String.eqb_spec s2 "") as [?|_]; [done|].
    by rewrite Hdate.
Qed.

Lemma canCheckinToday_unreadable_timestamp_witness :
  Profile.canCheckinToday (Date.fixed_offset 0) 1704153660123
    (Example.checkedInAt "yesterday") = true.
Proof.
  refine (proj1 (canCheckinToday_unreadable_timestamp (Date.fixed_offset 0) 1704153660123
                   (Example.checkedInAt "yesterday") _ "yesterday" eq_refl eq_refl) _).
  vm_compute. reflexivity.
Defined.

Lemma detached_app {St} (l1 l2 : list (M St unit)) (env : Env St) :
  snd (detached (l1 ++ l2) env) = snd (detached l2 (snd (detached l1 env))).
Proof.
  revert env. induction l1 as [|t l1 IH]; intros env; [done|].
  simpl. apply IH.
Qed.

(** X7: the client never computes points or streaks.  After any number
    of check-in attempts, in any order of success and failure, the
    user's total points and streak are those of the last attempt that
    succeeded, or the loaded ones when none did; on the profile screen
    the last check-in is the time of that attempt, on the catalog
    screen it is never touched. *)
Theorem checkins_last_success_wins
  (attempts : list (Fetched Checkin.Result Checkin.Failure * Z))
  (profile : Env Profile.State) (index : Env Index.State)
  (pu : Profile.User.t) (iu : Index.User.t) :
  Profile.user (ui profile) = Some pu ->
  Index.user (ui index) = Some iu ->
  let succeeded := omap (fun a => (fun r => (r, a.2)) <$> checkedInResult a.1) attempts in
  let profile' :=
    snd (detached ((fun a => Profile.handleDailyCheckin a.1 a.2) <$> attempts) profile) in
  let index' := snd (detached ((fun a => Index.handleDailyCheckin a.1) <$> attempts) index) in
  ∃ pu' iu',
    Profile.user (ui profile') = Some pu' ∧ Index.user (ui index') = Some iu'
    ∧ match last succeeded with
      | Some (r, now) =>
          Profile.User.total_points pu' = Checkin.total_points r
          ∧ Profile.User.daily_streak pu' = Checkin.streak r
          ∧ Profile.User.last_checkin pu' = Some (Date.ISOString now)
          ∧ Index.User.total_points iu' = Checkin.total_points r
          ∧ Index.User.daily_streak iu' = Checkin.streak r
      | None => pu' = pu ∧ iu' = iu
      end
    ∧ Index.User.last_checkin iu' = Index.User.last_checkin iu
    ∧ Index.User.id iu' = Index.User.id iu
    ∧ Profile.User.id pu' = Profile.User.id pu
    ∧ Profile.User.wallet_addresses pu' = Profile.User.wallet_addresses pu
    ∧ Profile.User.preferences pu' = Profile.User.preferences pu
    ∧ Profile.User.created_at pu' = Profile.User.created_at pu.
Proof.
  intros Hpu Hiu. cbv zeta.
  induction attempts as [|[fetched now] attempts IH] using rev_ind.
  - exists pu, iu. simpl. by rewrite Hpu, Hiu.
  - destruct IH as (pu1 & iu1 & Hp1 & Hi1 & Hlast & Hrest).
    rewrite !fmap_app, !detached_app, omap_app. simpl.
    revert Hp1 Hi1.
    generalize (snd (detached ((fun a => Profile.handleDailyCheckin a.1 a.2) <$> attempts)
                       profile)).
    generalize (snd (detached ((fun a => Index.handleDailyCheckin a.1) <$> attempts) index)).
    intros [[d a i l r f m] ic ia] [[p pl pd pn] pc pa]. simpl. intros -> ->.
    destruct fetched as [[[res|e]|[x|e]]|e]; simpl.
    + rewrite last_snoc. eexists _, _. split_and!; try reflexivity; apply Hrest.
    + rewrite app_nil_r. exists pu1, iu1. split_and!; try done; apply Hrest.
    + rewrite app_nil_r. exists pu1, iu1. split_and!; try done; apply Hrest.
    + rewrite app_nil_r. exists pu1, iu1. split_and!; try done; apply Hrest.
    + rewrite app_nil_r. exists pu1, iu1. split_and!; try done; apply Hrest.
Qed.

Lemma checkins_last_success_wins_witness :
  let attempts :=
    [(Normal (Ok2xx (Normal (Checkin.mkResult 10 2 20))), 1704153660123%Z);
     (Normal (NotOk (Normal (Checkin.mkFailure (Some "Already checked in today")))),
      1704153670000%Z)] in
  let index := mkEnv (Index.mkState true [] (Some Example.visitor) false false "all" false) [] [] in
  ∃ iu', Index.user (ui (snd (detached ((fun a => Index.handleDailyCheckin a.1) <$> attempts)
                                index))) = Some iu'
         ∧ Index.User.total_points iu' = 20%Z.
Proof.
  intros attempts index.
  destruct (checkins_last_success_wins attempts
              (mkEnv (Example.checkedInAt "2023-12-30T08:00:00Z") [] []) index
              _ Example.visitor eq_refl eq_refl)
    as (pu' & iu' & _ & Hi & Hlast & _).
  exists iu'. split; [exact Hi|]. exact (proj1 (proj2 (proj2 (proj2 Hlast)))).
Defined.

(** X8: every check-in attempt, on either screen, ends with exactly one
    alert: the success alert with the server's numbers as the program
    prints numbers, the failure alert with the server's message (or
    "Something went wrong" when it is missing or empty), or the error
    alert when the request was rejected or a body did not parse; only
    the last case writes to the console, the error it caught.  The two
    screens differ in the title of the success alert alone: the catalog
    screen's ends in the party-popper emoji, the profile screen's in
    the four characters its file holds there. *)
Theorem checkin_raises_one_alert
  (fetched : Fetched Checkin.Result Checkin.Failure) (now : Z)
  (profile : Env Profile.State) (index : Env Index.State) :
  let profile' := snd (Profile.handleDailyCheckin fetched now profile) in
  let index' := snd (Index.handleDailyCheckin fetched index) in
  let logged :=
    match checkinError fetched with
    | Some e => [("Error during checkin:", e)]
    | None => []
    end in
  fst (Profile.handleDailyCheckin fetched now profile) = Normal tt
  ∧ fst (Index.handleDailyCheckin fetched index) = Normal tt
  ∧ alerts profile' = alerts profile ++ [checkinAlert "Check-in Successful! ðŸŽ‰" fetched]
  ∧ alerts index' = alerts index ++ [checkinAlert "Check-in Successful! 🎉" fetched]
  ∧ console profile' = console profile ++ logged
  ∧ console index' = console index ++ logged
  ∧ "Check-in Successful! ðŸŽ‰" ≠ "Check-in Successful! 🎉"
  ∧ (∀ title,
       checkinAlert title (Normal (Ok2xx (Normal (Checkin.mkResult 10 2 20))))
       = (title,
          "You earned 10 points!" +:+ String "010" "Streak: 2 days"
            +:+ String "010" "Total Points: 20")
       ∧ checkinAlert title
           (Normal (Ok2xx (Normal (Checkin.mkResult 9007199254740993 (-3) (10 ^ 21)))))
         = (title,
            "You earned 9007199254740992 points!" +:+ String "010" "Streak: -3 days"
              +:+ String "010" "Total Points: 1e+21")).
Proof.
  destruct profile as [pst pc pa], index as [ist ic ia].
  cbv zeta. split_and!.
  7: discriminate.
  7: intros title; split; vm_compute; reflexivity.
  all: destruct fetched as [[[res|e]|[[[m|]]|e]]|e]; simpl; rewrite ?app_nil_r; try reflexivity.
  all: destruct (String.eqb m ""); reflexivity.
Qed.

(** X9: the theme and notification switches flip their own cell and
    leave the three other cells of the state as they are (the user
    record with its preferences, the loading flag and the other
    switch); flipping twice restores the state, the two switches
    commute, and the colours follow the dark-mode cell.  Nothing is
    saved: a reload that succeeds ends in the same state whatever the
    switches were, with the user the server sent and both cells set
    from its preferences (a missing preference record meaning the
    light theme with notifications on), and a reload that fails changes
    the loading flag alone, so it keeps the switches. *)
Theorem switches_are_local_and_lost_on_reload (st : Profile.State) :
  Profile.toggleTheme st
  = Profile.mkState (Profile.user st) (Profile.loading st)
      (negb (Profile.isDarkMode st)) (Profile.notificationsEnabled st)
  ∧ Profile.toggleNotifications st
    = Profile.mkState (Profile.user st) (Profile.loading st)
        (Profile.isDarkMode st) (negb (Profile.notificationsEnabled st))
  ∧ Profile.toggleTheme (Profile.toggleTheme st) = st
  ∧ Profile.toggleNotifications (Profile.toggleNotifications st) = st
  ∧ Profile.toggleTheme (Profile.toggleNotifications st)
    = Profile.toggleNotifications (Profile.toggleTheme st)
  ∧ Profile.theme (Profile.toggleTheme st)
    = (if Profile.isDarkMode st then themes.light else themes.dark)
  ∧ Profile.theme (Profile.toggleNotifications st) = Profile.theme st
  ∧ (∀ fetched console alerts,
       let reload s := ui (snd (Profile.loadUserData fetched (mkEnv s console alerts))) in
       match fetched with
       | Normal (Ok2xx (Normal userData)) =>
           reload (Profile.toggleTheme st) = reload st
           ∧ reload (Profile.toggleNotifications st) = reload st
           ∧ reload st
             = Profile.mkState (Some userData) false
                 match Profile.User.preferences userData with
                 | Some p => String.eqb (Profile.Preferences.theme p) "dark"
                 | None => false
                 end
                 match Profile.User.preferences userData with
                 | Some p => Profile.Preferences.notifications p
                 | None => true
                 end
       | _ =>
           reload st
           = Profile.mkState (Profile.user st) false
               (Profile.isDarkMode st) (Profile.notificationsEnabled st)
           ∧ reload (Profile.toggleTheme st)
             = Profile.mkState (Profile.user st) false
                 (negb (Profile.isDarkMode st)) (Profile.notificationsEnabled st)
           ∧ reload (Profile.toggleNotifications st)
             = Profile.mkState (Profile.user st) false
                 (Profile.isDarkMode st) (negb (Profile.notificationsEnabled st))
       end).
Proof.
  destruct st as [u l d n].
  unfold Profile.toggleTheme, Profile.toggleNotifications, Profile.theme. simpl.
  split_and!; try reflexivity.
  - by rewrite negb_involutive.
  - by rewrite negb_involutive.
  - by destruct d.
  - intros [[[userData|e]|[x|e]]|e] c a; simpl; split_and!; reflexivity.
Qed.

(** X10: what the profile screen shows once its load has settled: the
    profile when the request succeeded; otherwise the profile loaded
    before, or "Failed to load profile" when there is none; never the
    loading screen.  The load raises no alert, whatever happens. *)
Theorem profile_screen_after_load
  (fetched : Fetched Profile.User.t unit) (env : Env Profile.State) :
  let env' := snd (Profile.loadUserData fetched env) in
  Profile.screen (ui env')
  = match fetched, Profile.user (ui env) with
    | Normal (Ok2xx (Normal userData)), _ => Profile.Loaded userData
    | _, Some before => Profile.Loaded before
    | _, None => Profile.FailedToLoad
    end
  ∧ alerts env' = alerts env
  ∧ (Profile.user (ui env) = None ->
     (Profile.screen (ui env') = Profile.FailedToLoad
      <-> ∀ userData, fetched ≠ Normal (Ok2xx (Normal userData)))).
Proof.
  destruct env as [[u l d n] c a].
  destruct fetched as [[[userData|e]|[x|e]]|e]; simpl; unfold Profile.screen; simpl;
    (split_and!; [by destruct u | reflexivity |]); intros ->; split; try done.
  intros H. by destruct (H userData).
Qed.

End CheckinFacts.

(** ** More of the detail screen *)

Section AirdropDetailFacts.
Import Js AirdropDetail.

Lemma find_first_match {A} (f : A -> bool) (before : list A) (x : A) (after : list A) :
  Forall (fun y => f y = false) before -> f x = true ->
  List.find f (before ++ x :: after) = Some x.
Proof.
  intros Hb Hx. induction Hb as [|y l Hy _ IH]; simpl; [by rewrite Hx | by rewrite Hy].
Qed.

Lemma find_no_match {A} (f : A -> bool) (l : list A) :
  Forall (fun y => f y = false) l -> List.find f l = None.
Proof. intros H. induction H as [|y l Hy _ IH]; simpl; [done | by rewrite Hy]. Qed.

(** X11: [fetchUserStatus] takes the tracking flag and the completed
    tasks from the first entry of the fetched list whose [airdrop_id] is
    the route parameter; when no entry matches, or the request fails in
    any way, it leaves the state as it was.  It never turns tracking
    off, never touches the airdrop or the loading flag, and never raises
    an alert. *)
Theorem fetchUserStatus_first_match
  (id : string) (fetched : Fetched (list MyAirdrops.UserAirdropStatus.t) unit)
  (env : Env State) :
  let env' := snd (fetchUserStatus id fetched env) in
  fst (fetchUserStatus id fetched env) = Normal tt
  ∧ alerts env' = alerts env
  ∧ airdrop (ui env') = airdrop (ui env)
  ∧ loading (ui env') = loading (ui env)
  ∧ (tracking (ui env) = true -> tracking (ui env') = true)
  ∧ match fetched with
    | Normal (Ok2xx (Normal userAirdrops)) =>
        (∀ before ua after,
           userAirdrops = before ++ ua :: after ->
           Forall (fun x => MyAirdrops.UserAirdropStatus.airdrop_id x ≠ id) before ->
           MyAirdrops.UserAirdropStatus.airdrop_id ua = id ->
           tracking (ui env') = true
           ∧ completedTasks (ui env') = MyAirdrops.UserAirdropStatus.completed_tasks ua)
        ∧ (Forall (fun x => MyAirdrops.UserAirdropStatus.airdrop_id x ≠ id) userAirdrops ->
           ui env' = ui env)
    | _ => ui env' = ui env
    end.
Proof.
  destruct env as [[a l c t] co al].
  assert (Hne : ∀ xs, Forall (fun x => MyAirdrops.UserAirdropStatus.airdrop_id x ≠ id) xs ->
     Forall (fun x => String.eqb (MyAirdrops.UserAirdropStatus.airdrop_id x) id = false) xs).
  { intros xs Hxs. eapply Forall_impl; [exact Hxs|]. intros x Hx. by apply String.eqb_neq. }
  destruct fetched as [[[userAirdrops|e]|[x|e]]|e]; simpl;
    try (split_and!; done).
  unfold fetchUserStatus, try_catch, mbind, M_bind, bind, await. simpl.
  destruct (List.find _ userAirdrops) as [cur|] eqn:Hfind; simpl.
  - split_and!; try done.
    + intros before ua after -> Hbefore Hid.
      rewrite (find_first_match _ before ua after) in Hfind;
        [|by apply Hne|by apply String.eqb_eq].
      by injection Hfind as <-.
    + intros Hnone%Hne%find_no_match. by rewrite Hnone in Hfind.
  - split_and!; try done.
    intros before ua after -> Hbefore Hid.
    rewrite (find_first_match _ before ua after) in Hfind;
      [done|by apply Hne|by apply String.eqb_eq].
Qed.

(** X12: [handleTrackAirdrop] turns tracking on exactly when the server
    answers 2xx (the body is not read, so even a body that does not
    parse counts), never turns it off, touches no other cell, and ends
    with exactly one alert in every outcome; once tracking is on, the
    screen shows the tracking indicator instead of the track button. *)
Theorem handleTrackAirdrop_outcomes {A E : Type} (fetched : Fetched A E) (env : Env State) :
  let env' := snd (handleTrackAirdrop fetched env) in
  fst (handleTrackAirdrop fetched env) = Normal tt
  ∧ tracking (ui env')
    = (match fetched with Normal (Ok2xx _) => true | _ => false end || tracking (ui env))
  ∧ airdrop (ui env') = airdrop (ui env)
  ∧ loading (ui env') = loading (ui env)
  ∧ completedTasks (ui env') = completedTasks (ui env)
  ∧ alerts env'
    = alerts env
      ++ [match fetched with
          | Normal (Ok2xx _) => ("Success", "Airdrop is now being tracked!")
          | Normal (NotOk _) => ("Error", "Failed to track airdrop")
          | Throw _ => ("Error", "Network error occurred")
          end]
  ∧ (∀ a, airdrop (ui env) = Some a -> loading (ui env) = false ->
          screen (ui env') = Detail a (negb (tracking (ui env'))))
  ∧ (∀ a, screen (ui env') = Detail a false -> tracking (ui env') = true).
Proof.
  destruct env as [[a l c t] co al].
  destruct fetched as [[j|j]|e]; simpl; split_and!; try done;
    try (intros a' [= ->] ->; done);
    unfold screen; simpl; intros a'; destruct l, a, t; simpl; congruence.
Qed.

(** X13: pressing the complete button of a task.  The button tests the
    completed tasks of the render it belongs to, the handler writes
    into the state as it is when the answer has arrived.  On a task
    the render shows completed the press does nothing at all.
    Otherwise a successful answer appends the task id to the completed
    tasks, which marks that task (and no task with another id)
    completed and disables its button, and the alert prints the
    progress; any failure, a 2xx answer with a body that does not parse
    included, leaves the state as it was and raises an error alert.
    A press answered while the list is still the rendered one keeps a
    duplicate-free list duplicate-free; two presses on the same render,
    both answered with success, append the id twice. *)
Theorem pressComplete_outcomes
  (rendered : State) (task : Task.t) (fetched : Fetched Completion unit) (env : Env State) :
  let env' := snd (pressComplete rendered task fetched env) in
  (isCompleted rendered task = true -> env' = env)
  ∧ (isCompleted rendered task = false ->
     match fetched with
     | Normal (Ok2xx (Normal result)) =>
         completedTasks (ui env') = completedTasks (ui env) ++ [Task.id task]
         ∧ alerts env'
           = alerts env ++ [("Task Completed! ✅", "Progress: " +:+ show (progress result) +:+ "%")]
         ∧ console env' = console env
         ∧ isCompleted (ui env') task = true
         ∧ (∀ other, Task.id other ≠ Task.id task ->
                     isCompleted (ui env') other = isCompleted (ui env) other)
         ∧ (tracking (ui env) = true ->
            completeButton (taskRow (ui env') task) = Some (true, "checkmark"))
     | Normal (NotOk _) =>
         ui env' = ui env
         ∧ alerts env' = alerts env ++ [("Error", "Failed to complete task")]
         ∧ console env' = console env
     | Normal (Ok2xx (Throw e)) | Throw e =>
         ui env' = ui env
         ∧ alerts env' = alerts env ++ [("Error", "Network error occurred")]
         ∧ console env' = console env ++ [("Error completing task:", e)]
     end)
  ∧ airdrop (ui env') = airdrop (ui env)
  ∧ loading (ui env') = loading (ui env)
  ∧ tracking (ui env') = tracking (ui env)
  ∧ (completedTasks (ui env) = completedTasks rendered ->
     NoDup (completedTasks (ui env)) -> NoDup (completedTasks (ui env')))
  ∧ (isCompleted rendered task = false ->
     ∀ first second,
       completedTasks
         (ui (snd (pressComplete rendered task (Normal (Ok2xx (Normal second)))
                     (snd (pressComplete rendered task (Normal (Ok2xx (Normal first))) env)))))
       = completedTasks (ui env) ++ [Task.id task; Task.id task]).
Proof.
  destruct env as [st co al].
  unfold pressComplete. cbn [ui fst snd].
  destruct (isCompleted rendered task) eqn:Hc.
  - split_and!; done.
  - destruct st as [a l c t].
    split_and!; try done.
    + intros _. destruct fetched as [[[result|e]|[x|e]]|e]; simpl; try done.
      unfold isCompleted, taskRow. simpl. split_and!; try done.
      * apply bool_decide_eq_true. apply elem_of_app. right. by apply list_elem_of_singleton.
      * intros other Hother. apply bool_decide_ext.
        rewrite elem_of_app, list_elem_of_singleton. split; [|by left].
        by intros [?|?].
      * intros ->. rewrite bool_decide_true; [done|].
        apply elem_of_app. right. by apply list_elem_of_singleton.
    + by destruct fetched as [[[result|e]|[x|e]]|e].
    + by destruct fetched as [[[result|e]|[x|e]]|e].
    + by destruct fetched as [[[result|e]|[x|e]]|e].
    + simpl. intros Hsame Hnd. unfold isCompleted in Hc. rewrite <- Hsame in Hc.
      apply bool_decide_eq_false in Hc.
      destruct fetched as [[[result|e]|[x|e]]|e]; simpl; try done.
      apply NoDup_app. split_and!; [done | | apply NoDup_singleton].
      intros x Hx Hx'. apply list_elem_of_singleton in Hx' as ->. done.
    + intros _ first second. simpl. by rewrite <- app_assoc.
Qed.

Lemma pressComplete_outcomes_witness :
  let st := mkState None false ["t1"] true in
  let t2 := Task.mk "t2" "Follow" "" "social" None true in
  completedTasks
    (ui (snd (pressComplete st t2 (Normal (Ok2xx (Normal (mkCompletion 100))))
                (snd (pressComplete st t2 (Normal (Ok2xx (Normal (mkCompletion 50))))
                        (mkEnv st [] []))))))
  = ["t1"; "t2"; "t2"].
Proof.
  intros st t2.
  destruct (pressComplete_outcomes st t2 (Normal (Ok2xx (Normal (mkCompletion 100))))
              (mkEnv st [] [])) as (_ & _ & _ & _ & _ & _ & Htwice).
  exact (Htwice ltac:(vm_compute; reflexivity) (mkCompletion 50) (mkCompletion 100)).
Defined.

(** X19: the icon of a task row.  The five task types of the table
    have their icon; every other type falls back to the check-mark
    circle, except the names of the members of [Object.prototype]: the
    table is an object literal, which finds that member there, and
    what goes to the icon is no name. *)
Theorem getTaskIcon_cases (type : string) :
  (∀ icon, taskIcons !! type = Some icon -> getTaskIcon type = Icon icon)
  ∧ (taskIcons !! type = None ->
     getTaskIcon type = if bool_decide (type ∈ Object_prototype) then NoName
                        else Icon "checkmark-circle")
  ∧ (getTaskIcon <$> ["social"; "staking"; "snapshot"; "trading"; "other"; "bridge"; ""])
    = [Icon "people"; Icon "wallet"; Icon "camera"; Icon "swap-horizontal";
       Icon "checkmark-circle"; Icon "checkmark-circle"; Icon "checkmark-circle"]
  ∧ Forall (fun name => taskIcons !! name = None ∧ getTaskIcon name = NoName) Object_prototype.
Proof.
  split_and!.
  - intros icon Hicon. unfold getTaskIcon, get. rewrite Hicon.
    assert (Hne : icon ≠ "").
    { intros ->. apply (elem_of_list_to_map_2 (M := gmap string)) in Hicon.
      apply list_elem_of_In in Hicon. simpl in Hicon.
      repeat (destruct Hicon as [Hicon|Hicon]; [discriminate Hicon|]). done. }
    by apply String.eqb_neq in Hne as ->.
  - intros Hnone. unfold getTaskIcon, get. rewrite Hnone.
    replace (taskIcons !! "__proto__") with (@None string) by (vm_compute; reflexivity).
    simpl. by destruct (bool_decide _).
  - vm_compute. reflexivity.
  - repeat constructor; vm_compute; reflexivity.
Qed.

(** X14: the effect on mount.  Without a route parameter nothing is
    requested and the screen stays on its loading text.  With one, both
    loads run, and whichever settles first the state and the alerts end
    the same, as after the airdrop load followed by the status load:
    the loading flag is off; the airdrop is the one its request
    delivered, and the screen shows it, or "Airdrop not found" when the
    request failed; tracking is on, with the completed tasks of the
    first status of the list for this airdrop, exactly when the status
    request delivered a list that has one, and otherwise tracking stays
    off and no task is completed; and exactly the failures of the
    airdrop request raise an alert (a failure of the status request
    raises none). *)
Theorem detail_mount_outcomes
  (id : option string) (details : Fetched Airdrop.t unit)
  (status : Fetched (list MyAirdrops.UserAirdropStatus.t) unit) (statusSettlesFirst : bool) :
  let env := mkEnv initial [] [] in
  let env' := snd (mount id details status statusSettlesFirst env) in
  (∀ env0, ui (snd (mount id details status statusSettlesFirst env0))
           = ui (snd (mount id details status (negb statusSettlesFirst) env0))
           ∧ alerts (snd (mount id details status statusSettlesFirst env0))
             = alerts (snd (mount id details status (negb statusSettlesFirst) env0)))
  ∧ if truthy id then
      (∀ env0, ui (snd (mount id details status statusSettlesFirst env0))
               = ui (snd (fetchUserStatus (Js.text id) status
                            (snd (fetchAirdropDetails details env0)))))
      ∧ loading (ui env') = false
      ∧ airdrop (ui env')
        = match details with
          | Normal (Ok2xx (Normal a)) => Some a
          | _ => None
          end
      ∧ screen (ui env')
        = match details with
          | Normal (Ok2xx (Normal a)) => Detail a (negb (tracking (ui env')))
          | _ => NotFound
          end
      ∧ match status with
        | Normal (Ok2xx (Normal userAirdrops)) =>
            (∀ before ua after,
               userAirdrops = before ++ ua :: after ->
               Forall (fun x => MyAirdrops.UserAirdropStatus.airdrop_id x ≠ Js.text id) before ->
               MyAirdrops.UserAirdropStatus.airdrop_id ua = Js.text id ->
               tracking (ui env') = true
               ∧ completedTasks (ui env') = MyAirdrops.UserAirdropStatus.completed_tasks ua)
            ∧ (Forall (fun x => MyAirdrops.UserAirdropStatus.airdrop_id x ≠ Js.text id)
                 userAirdrops ->
               tracking (ui env') = false ∧ completedTasks (ui env') = [])
        | _ => tracking (ui env') = false ∧ completedTasks (ui env') = []
        end
      ∧ alerts env'
        = match details with
          | Normal (Ok2xx (Normal a)) => []
          | Normal (NotOk _) => [("Error", "Failed to load airdrop details")]
          | _ => [("Error", "Network error occurred")]
          end
    else env' = env ∧ screen (ui env') = LoadingScreen.
Proof.
  assert (Hne : ∀ xs,
     Forall (fun x => MyAirdrops.UserAirdropStatus.airdrop_id x ≠ Js.text id) xs ->
     Forall (fun x => String.eqb (MyAirdrops.UserAirdropStatus.airdrop_id x) (Js.text id) = false)
       xs).
  { intros xs Hxs. eapply Forall_impl; [exact Hxs|]. intros x Hx. by apply String.eqb_neq. }
  unfold mount. destruct (truthy id); [|by split].
  unfold fetchUserStatus, fetchAirdropDetails, try_finally, try_catch,
    mbind, M_bind, bind, await.
  split; [|split].
  - intros [[a l c t] co al].
    destruct statusSettlesFirst, details as [[[d|e]|[x|e]]|e],
      status as [[[us|e']|[x'|e']]|e']; simpl; try done;
      destruct (List.find _ us); done.
  - intros [[a l c t] co al].
    destruct statusSettlesFirst, details as [[[d|e]|[x|e]]|e],
      status as [[[us|e']|[x'|e']]|e']; simpl; try done;
      destruct (List.find _ us); done.
  - destruct status as [[[us|e']|[x'|e']]|e'].
    2-5: destruct statusSettlesFirst, details as [[[d|e]|[x|e]]|e]; simpl; done.
    destruct (List.find
                (fun ua => String.eqb (MyAirdrops.UserAirdropStatus.airdrop_id ua) (Js.text id))
                us) as [cur|] eqn:Hfind.
    + assert (Hfirst : ∀ before ua after, us = before ++ ua :: after ->
         Forall (fun x => MyAirdrops.UserAirdropStatus.airdrop_id x ≠ Js.text id) before ->
         MyAirdrops.UserAirdropStatus.airdrop_id ua = Js.text id -> cur = ua).
      { intros before ua after -> Hbefore Hid.
        rewrite (find_first_match _ before ua after) in Hfind;
          [|by apply Hne|by apply String.eqb_eq].
        by injection Hfind as <-. }
      assert (Hsome : ¬ Forall (fun x => MyAirdrops.UserAirdropStatus.airdrop_id x ≠ Js.text id) us).
      { intros Hnone%Hne%find_no_match. by rewrite Hnone in Hfind. }
      destruct statusSettlesFirst, details as [[[d|e]|[x|e]]|e]; simpl;
        split_and!; try done;
        first [ intros before ua after Hus Hbefore Hid;
                by rewrite (Hfirst before ua after Hus Hbefore Hid)
              | intros Hall; by destruct Hsome ].
    + assert (Hnone : ∀ before ua after, us = before ++ ua :: after ->
         Forall (fun x => MyAirdrops.UserAirdropStatus.airdrop_id x ≠ Js.text id) before ->
         MyAirdrops.UserAirdropStatus.airdrop_id ua = Js.text id -> False).
      { intros before ua after -> Hbefore Hid.
        rewrite (find_first_match _ before ua after) in Hfind;
          [done|by apply Hne|by apply String.eqb_eq]. }
      destruct statusSettlesFirst, details as [[[d|e]|[x|e]]|e]; simpl;
        split_and!; try done;
        intros before ua after Hus Hbefore Hid;
        by destruct (Hnone before ua after Hus Hbefore Hid).
Qed.

(** X15: the eligibility check.  With an address that is blank after
    trimming, nothing is requested: one alert asks for an address and
    no state cell changes.  Otherwise the request carries the trimmed
    address and the route parameter, the checking flag is off again
    when the check has settled in any way, the typed address stays, the
    result is replaced and the modal closed on success only, and one
    alert tells the outcome. *)
Theorem checkEligibility_outcomes
  (trim : string -> string) (id : string)
  (post : EligibilityRequest -> Fetched EligibilityResult.t unit) (env : Env Eligibility) :
  let env' := snd (checkEligibility trim id post env) in
  let address := trim (walletAddress (ui env)) in
  fst (checkEligibility trim id post env) = Normal tt
  ∧ walletAddress (ui env') = walletAddress (ui env)
  ∧ if String.eqb address "" then
      ui env' = ui env
      ∧ console env' = console env
      ∧ alerts env' = alerts env ++ [("Error", "Please enter a wallet address")]
    else
      checkingEligibility (ui env') = false
      ∧ match post (mkEligibilityRequest address id) with
        | Normal (Ok2xx (Normal result)) =>
            eligibilityResult (ui env') = Some result
            ∧ showEligibilityModal (ui env') = false
            ∧ ∃ message,
                alerts env'
                = alerts env
                  ++ [(if EligibilityResult.is_eligible result
                       then "Eligible! 🎉" else "Not Eligible 😔", message)]
        | failed =>
            eligibilityResult (ui env') = eligibilityResult (ui env)
            ∧ showEligibilityModal (ui env') = showEligibilityModal (ui env)
            ∧ alerts env'
              = alerts env
                ++ [("Error",
                     match failed with
                     | Normal (NotOk _) => "Failed to check eligibility"
                     | _ => "Network error occurred"
                     end)]
        end.
Proof.
  destruct env as [[w r c m] co al].
  unfold checkEligibility, try_finally, try_catch, mbind, M_bind, bind, await, getState. simpl.
  destruct (String.eqb (trim w) ""); [by split_and!|]. simpl.
  destruct (post _) as [[[result|e]|[x|e]]|e]; simpl; split_and!; try done.
  by eexists.
Qed.

(** X16: the "Important Dates" card has one row for each of deadline,
    snapshot and listing date that is present and not empty, in that
    order, and its value is the host's print of that date: the "TBA"
    that [formatDate] keeps for a missing date is never shown, a
    missing date has no row. *)
Theorem datesList_rows (toLocaleDateString : string -> string) (a : Airdrop.t) :
  let dates := [("Deadline:", Airdrop.deadline a); ("Snapshot:", Airdrop.snapshot_date a);
                ("Listing:", Airdrop.listing_date a)] in
  datesList toLocaleDateString a
  = omap (fun d => match d.2 with
                   | Some s => if String.eqb s "" then None
                               else Some (d.1, toLocaleDateString s)
                   | None => None
                   end) dates
  ∧ (length (datesList toLocaleDateString a) <= 3)%nat
  ∧ (∀ d, formatDate toLocaleDateString d = "TBA"
          -> truthy d = false ∨ toLocaleDateString (text d) = "TBA").
Proof.
  unfold datesList, formatDate, mounted, truthy, text.
  destruct (Airdrop.deadline a) as [d1|], (Airdrop.snapshot_date a) as [d2|],
    (Airdrop.listing_date a) as [d3|]; simpl;
    repeat match goal with |- context [String.eqb ?s ""] => destruct (String.eqb s "") end;
    simpl; (split_and!; [reflexivity | lia |]);
    intros [s|]; simpl; try (by left);
    destruct (String.eqb s ""); simpl; auto.
Qed.

End AirdropDetailFacts.

(** ** More of the catalog screen *)

Section IndexFacts.
Import Js Index.

(** X17: the two requests of the catalog screen's load are independent.
    Whichever settles first, the state ends the same: the airdrop list
    is replaced exactly when its request succeeded and the user exactly
    when the user request succeeded, a failure of one never undoing the
    other and leaving what was loaded before; the loading flag is off,
    no alert is raised, and the filter is not touched.  A pull to
    refresh does the same and ends with the refresh control off. *)
Theorem catalog_load_independent_requests (net : Network) (env : Env State) :
  let env' := snd (loadInitialData net env) in
  let other := mkNetwork (airdropsResponse net) (userResponse net)
                 (negb (userSettlesFirst net)) in
  fst (loadInitialData net env) = Normal tt
  ∧ ui env' = ui (snd (loadInitialData other env))
  ∧ airdrops (ui env')
    = match airdropsResponse net with
      | Normal (Ok2xx (Normal data)) => data
      | _ => airdrops (ui env)
      end
  ∧ user (ui env')
    = match userResponse net with
      | Normal (Ok2xx (Normal u)) => Some u
      | _ => user (ui env)
      end
  ∧ loading (ui env') = false
  ∧ selectedFilter (ui env') = selectedFilter (ui env)
  ∧ alerts env' = alerts env
  ∧ ui (snd (handleRefresh net env)) = setRefreshing false (ui env')
  ∧ alerts (snd (handleRefresh net env)) = alerts env.
Proof.
  destruct env as [[d a u l r f m] co al].
  destruct net as [[[[data|e]|[x|e]]|e] [[[usr|e']|[x'|e']]|e'] []]; simpl;
    split_and!; reflexivity.
Qed.

End IndexFacts.
